(** * TRACIENT income-pattern anomaly detection

    A shallow embedding of [ai-model/anomaly_detection_model/detect_anomaly.py]:
    the feature computations of [collect_monthly_income] and
    [collect_pattern_data], the rule bank of [rule_based_detection] and the
    risk assessment computed in [display_results] and driven by [main].

    Numbers.  Python floats and numpy float64 values are modelled by exact
    rationals ([Q], compared with [==]): rounding, NaN and infinities are
    outside this model, and a float literal such as [0.3] stands for the
    rational 3/10.  One computation, the amount-change ratio, is also given
    over binary64 floats, where its overflow shows.

    Dictionaries.  The feature dictionaries are finite maps from string keys
    to numbers ([gmap string Q]); [d.get(k, v)] is [get d k v]. *)

From Stdlib Require Import QArith Qminmax Qabs Qround Lqa.
From stdpp Require Import gmap strings list.
From Stdlib Require Import PrimFloat.

Open Scope Q_scope.

(** ** Comparisons on numbers, as booleans *)

(** [x > y] *)
Definition Qgtb (x y : Q) : bool := negb (Qle_bool x y).

(** [x < y] *)
Definition Qltb (x y : Q) : bool := Qgtb y x.

(** [x >= y] *)
Definition Qgeb (x y : Q) : bool := Qle_bool y x.

(** ** Dictionaries *)

Abbreviation dict := (gmap string Q).

(** [d.get(k, dflt)] *)
Definition get (d : dict) (k : string) (dflt : Q) : Q := default dflt (d !! k).

(** ** Constants *)

Definition ANOMALY_DESCRIPTIONS : gmap string string :=
  list_to_map
    [ ("sudden_spike", "⚠️ SUDDEN SPIKE: Income jumped 3x+ above YOUR personal average");
      ("high_volatility", "⚠️ HIGH VOLATILITY: Your income varies wildly month-to-month");
      ("irregular_timing", "⚠️ IRREGULAR TIMING: Transactions at unusual hours/weekends consistently");
      ("new_sources", "⚠️ NEW SOURCES: Multiple new income sources appeared suddenly");
      ("round_amounts", "⚠️ ROUND AMOUNTS: Suspiciously round transaction amounts");
      ("structuring", "⚠️ STRUCTURING: Many transactions just below reporting thresholds");
      ("velocity_change", "⚠️ VELOCITY CHANGE: Transaction frequency changed dramatically");
      ("dormant_burst", "⚠️ DORMANT BURST: Large activity after months of inactivity");
      ("pattern_break", "⚠️ PATTERN BREAK: Your regular payment pattern suddenly broke");
      ("layering", "⚠️ LAYERING: Complex in-out transactions obscuring source");
      ("ghost_income", "⚠️ GHOST INCOME: Income from unverifiable/shell sources");
      ("weekend_heavy", "⚠️ WEEKEND HEAVY: Unusual concentration of weekend transactions");
      ("low_verification", "⚠️ LOW VERIFICATION: Most income sources are unverified") ]%string.

(** ** The rule bank *)

(** [list(set(anomalies))].  The order in which Python lists the members of a
    set is unspecified; the model lists them in the order of [elements], and
    no statement below depends on that order. *)
Definition list_of_set (anomalies : list string) : list string :=
  elements (list_to_set anomalies : gset string).

Definition rule_based_detection (income_data pattern_data : dict) : list string :=
  let anomalies : list string := [] in
  (* 1. Check income volatility (CV > 0.5 is suspicious) *)
  let anomalies :=
    if Qgtb (get income_data "income_cv" 0) 0.5
    then anomalies ++ ["high_volatility"%string] else anomalies in
  (* 2. Check for sudden spikes (>3x month-over-month increase) *)
  let anomalies :=
    if Qgtb (get income_data "max_mom_increase" 0) 3
    then anomalies ++ ["sudden_spike"%string] else anomalies in
  (* 3. Check for pattern breaks (high deviation from personal average) *)
  let anomalies :=
    if Qgtb (get income_data "max_deviation_from_mean" 0) 2
    then anomalies ++ ["pattern_break"%string] else anomalies in
  (* 4. Check for structuring (many transactions near thresholds) *)
  let anomalies :=
    if Qgtb (get pattern_data "near_50k_pct" 0) 0.3
       || Qgtb (get pattern_data "near_200k_pct" 0) 0.2
    then anomalies ++ ["structuring"%string] else anomalies in
  (* 5. Check for round amount suspicion *)
  let anomalies :=
    if Qgtb (get pattern_data "round_amount_pct" 0) 0.6
    then anomalies ++ ["round_amounts"%string] else anomalies in
  (* 6. Check for unusual timing *)
  let anomalies :=
    if Qgtb (get pattern_data "night_hours_pct" 0) 0.3
       || Qgtb (get pattern_data "weekend_pct" 0) 0.5
    then anomalies ++ ["irregular_timing"%string] else anomalies in
  (* 7. Check for velocity changes *)
  let anomalies :=
    if Qgtb (get pattern_data "velocity_change" 1) 3
       || Qltb (get pattern_data "velocity_change" 1) 0.3
    then anomalies ++ ["velocity_change"%string] else anomalies in
  (* 8. Check for transaction bursts *)
  let anomalies :=
    if Qgtb (get pattern_data "burst_ratio" 1) 5
    then anomalies ++ ["dormant_burst"%string] else anomalies in
  (* 9. Check for new sources suddenly appearing *)
  let anomalies :=
    if Qgtb (get pattern_data "new_source_rate" 0) 0.5
    then anomalies ++ ["new_sources"%string] else anomalies in
  (* 10. Check for low verification *)
  let anomalies :=
    if Qgtb (get pattern_data "unverified_rate" 0) 0.5
    then anomalies ++ ["ghost_income"%string] else anomalies in
  (* 11. Check for dormancy patterns (long gaps) *)
  let anomalies :=
    if Qgtb (get pattern_data "max_gap_days" 0) 90
       && Qgtb (get pattern_data "amount_change_ratio" 1) 2
    then anomalies ++ ["dormant_burst"%string] else anomalies in
  (* 12. Check for excessive weekend transactions *)
  let anomalies :=
    if Qgtb (get pattern_data "weekend_pct" 0) 0.4
    then anomalies ++ ["weekend_heavy"%string] else anomalies in
  (* Remove duplicates *)
  list_of_set anomalies.

(** *** The same rules as a bank of independent predicates

    Each [if] of [rule_based_detection] is one rule: a condition on the two
    dictionaries and the label appended when it holds.  [evaluate] runs a
    bank in list order, appending as the source does. *)

Record rule := Rule { fires : dict -> dict -> bool; label : string }.

Definition burst_rule : rule :=
  Rule (fun _ pattern_data => Qgtb (get pattern_data "burst_ratio" 1) 5)
       "dormant_burst".

Definition gap_rule : rule :=
  Rule (fun _ pattern_data =>
          Qgtb (get pattern_data "max_gap_days" 0) 90
          && Qgtb (get pattern_data "amount_change_ratio" 1) 2)
       "dormant_burst".

Definition structuring_rule : rule :=
  Rule (fun _ pattern_data =>
          Qgtb (get pattern_data "near_50k_pct" 0) 0.3
          || Qgtb (get pattern_data "near_200k_pct" 0) 0.2)
       "structuring".

Definition rule_bank : list rule :=
  [ Rule (fun income_data _ => Qgtb (get income_data "income_cv" 0) 0.5)
         "high_volatility";
    Rule (fun income_data _ => Qgtb (get income_data "max_mom_increase" 0) 3)
         "sudden_spike";
    Rule (fun income_data _ => Qgtb (get income_data "max_deviation_from_mean" 0) 2)
         "pattern_break";
    structuring_rule;
    Rule (fun _ pattern_data => Qgtb (get pattern_data "round_amount_pct" 0) 0.6)
         "round_amounts";
    Rule (fun _ pattern_data =>
            Qgtb (get pattern_data "night_hours_pct" 0) 0.3
            || Qgtb (get pattern_data "weekend_pct" 0) 0.5)
         "irregular_timing";
    Rule (fun _ pattern_data =>
            Qgtb (get pattern_data "velocity_change" 1) 3
            || Qltb (get pattern_data "velocity_change" 1) 0.3)
         "velocity_change";
    burst_rule;
    Rule (fun _ pattern_data => Qgtb (get pattern_data "new_source_rate" 0) 0.5)
         "new_sources";
    Rule (fun _ pattern_data => Qgtb (get pattern_data "unverified_rate" 0) 0.5)
         "ghost_income";
    gap_rule;
    Rule (fun _ pattern_data => Qgtb (get pattern_data "weekend_pct" 0) 0.4)
         "weekend_heavy" ].

Definition step (income_data pattern_data : dict)
    (anomalies : list string) (r : rule) : list string :=
  if fires r income_data pattern_data then anomalies ++ [label r] else anomalies.

Definition appended (bank : list rule) (income_data pattern_data : dict)
    (anomalies : list string) : list string :=
  foldl (step income_data pattern_data) anomalies bank.

Definition evaluate (bank : list rule) (income_data pattern_data : dict) : list string :=
  list_of_set (appended bank income_data pattern_data []).

(** The labels the rules can append. *)
Definition producible_labels : list string :=
  [ "high_volatility"; "sudden_spike"; "pattern_break"; "structuring";
    "round_amounts"; "irregular_timing"; "velocity_change"; "dormant_burst";
    "new_sources"; "ghost_income"; "weekend_heavy" ]%string.

(** ** Risk assessment ([display_results])

    [display_results] prints its findings; the model returns what its
    RISK ASSESSMENT section prints: the score, the level and the
    recommendation. *)

Record ml_result := MlResult {
  is_anomaly : bool;
  anomaly_score : Q;
  confidence : Q
}.

Record risk_assessment := RiskAssessment {
  risk_score : Q;
  risk_level : string;
  recommendation : string
}.

Definition HIGH_RISK : string := "🔴 HIGH RISK".
Definition MEDIUM_RISK : string := "🟡 MEDIUM RISK".
Definition LOW_RISK : string := "🟢 LOW RISK".

(** [len(rule_anomalies)], as a number *)
Definition len (rule_anomalies : list string) : Q :=
  inject_Z (Z.of_nat (length rule_anomalies)).

Definition display_results (ml : ml_result) (rule_anomalies : list string)
    : risk_assessment :=
  let risk_score := anomaly_score ml in
  let risk_score :=
    match rule_anomalies with
    | [] => risk_score
    | _ :: _ => risk_score + len rule_anomalies * 10
    end in
  let risk_score := Qmin risk_score 100 in
  if Qgeb risk_score 70 then
    RiskAssessment risk_score HIGH_RISK
      "IMMEDIATE REVIEW REQUIRED - Unusual patterns detected"
  else if Qgeb risk_score 40 then
    RiskAssessment risk_score MEDIUM_RISK
      "MONITORING RECOMMENDED - Some unusual patterns"
  else
    RiskAssessment risk_score LOW_RISK
      "NORMAL - Patterns consistent with history".

(** ** numpy on one-dimensional arrays *)

Definition np_sum (a : list Q) : Q := foldl Qplus 0 a.

(** [np.mean(a)]; numpy returns NaN on an empty array, where the model
    divides by zero and so gives 0.  Every series the program analyses has
    between 6 and 24 months. *)
Definition np_mean (a : list Q) : Q :=
  np_sum a / inject_Z (Z.of_nat (length a)).

(** [np.diff(a)]: [out[i] = a[i+1] - a[i]] *)
Definition np_diff (a : list Q) : list Q :=
  zip_with (fun here next => next - here) a (tail a).

(** [np.max(a)] and [np.min(a)]; numpy raises on an empty array, and every
    call below is guarded so that the array is not empty. *)
Definition np_max (a : list Q) : Q :=
  match a with
  | [] => 0
  | x :: rest => foldl Qmax x rest
  end.

Definition np_min (a : list Q) : Q :=
  match a with
  | [] => 0
  | x :: rest => foldl Qmin x rest
  end.

(** [np.abs(a)] *)
Definition np_abs (a : list Q) : list Q := map Qabs a.

(** a boolean array read as numbers: [True] is 1 and [False] is 0 *)
Definition of_bools (a : list bool) : list Q :=
  map (fun b : bool => if b then 1 else 0) a.

(** ** Monthly income features ([collect_monthly_income])

    [monthly_incomes] is the list the input loop builds: the program asks for
    the months "most recent first", so index 0 holds the most recent month.
    The entry ['monthly_incomes'] of the returned dictionary holds that list
    itself and is read by no rule; the model's dictionary leaves it out. *)

Definition mean_income (incomes : list Q) : Q :=
  if (0 <? length incomes)%nat then np_mean incomes else 0.

(** [incomes[:-1] + 1] *)
Definition all_but_last_plus_1 (incomes : list Q) : list Q :=
  map (fun x => x + 1) (removelast incomes).

(** [np.diff(incomes) / (incomes[:-1] + 1)], meaningful when
    [len(incomes) > 1] *)
Definition mom_changes (incomes : list Q) : list Q :=
  zip_with Qdiv (np_diff incomes) (all_but_last_plus_1 incomes).

Definition max_increase (incomes : list Q) : Q :=
  if (1 <? length incomes)%nat then
    if (0 <? length (mom_changes incomes))%nat
    then np_max (mom_changes incomes) else 0
  else 0.

Definition max_decrease (incomes : list Q) : Q :=
  if (1 <? length incomes)%nat then
    if (0 <? length (mom_changes incomes))%nat
    then Qabs (np_min (mom_changes incomes)) else 0
  else 0.

Definition avg_change (incomes : list Q) : Q :=
  if (1 <? length incomes)%nat then
    if (0 <? length (mom_changes incomes))%nat
    then np_mean (np_abs (mom_changes incomes)) else 0
  else 0.

(** ['max_deviation_from_mean'] *)
Definition max_deviation_from_mean (incomes : list Q) : Q :=
  let mean_income := mean_income incomes in
  if Qgtb mean_income 0
  then np_max (map (fun x => Qabs (x - mean_income) / mean_income) incomes)
  else 0.

(** ['pct_high_deviation'] *)
Definition pct_high_deviation (incomes : list Q) : Q :=
  let mean_income := mean_income incomes in
  np_mean (of_bools
    (map (fun x => Qgtb (Qabs (x - mean_income) / (mean_income + 1)) 1) incomes)).

Section Numpy.

(** [np.sqrt] and [np.log2] have no exact rational value; the development is
    parametric in them. *)
Variable np_sqrt : Q -> Q.
Variable np_log2 : Q -> Q.

(** [np.std(a)]: the square root of the mean squared distance to the mean *)
Definition np_std (a : list Q) : Q :=
  let m := np_mean a in
  np_sqrt (np_mean (map (fun x => Qabs (x - m) * Qabs (x - m)) a)).

Definition std_income (incomes : list Q) : Q :=
  if (1 <? length incomes)%nat then np_std incomes else 0.

(** ['income_cv'] *)
Definition income_cv (incomes : list Q) : Q :=
  if Qgtb (mean_income incomes) 0
  then std_income incomes / mean_income incomes else 0.

Definition collect_monthly_income (monthly_incomes : list Q) : dict :=
  let incomes := monthly_incomes in
  <[ "income_cv"%string := income_cv incomes ]>
  (<[ "max_mom_increase"%string := max_increase incomes ]>
  (<[ "max_mom_decrease"%string := max_decrease incomes ]>
  (<[ "avg_mom_change"%string := avg_change incomes ]>
  (<[ "max_deviation_from_mean"%string := max_deviation_from_mean incomes ]>
  (<[ "pct_high_deviation"%string := pct_high_deviation incomes ]> ∅))))).

(** ** Transaction pattern features ([collect_pattern_data]) *)

(** The answers to the prompts of [collect_pattern_data], in the order asked.
    Percentages are as typed (0 to 100). *)
Record pattern_answers := PatternAnswers {
  avg_tx_per_month : Q;
  max_tx : Z;
  old_avg : Q;
  new_avg : Q;
  weekend : Q;
  night_hours : Q;
  round_amount : Q;
  near_50k : Q;
  near_200k : Q;
  num_unique_sources : Z;
  source_concentration : Q;
  new_source : Q;
  unverified : Q;
  cash_deposit : Q;
  upi_pct : Q;
  neft_pct : Q;
  first_half_total : Q;
  second_half_total : Q;
  max_gap_days : Z;
  avg_gap_days : Q
}.

Definition freq_cv (a : pattern_answers) : Q :=
  if Qgtb (avg_tx_per_month a) 0
  then (inject_Z (max_tx a) - avg_tx_per_month a) / avg_tx_per_month a else 0.

Definition velocity_change (a : pattern_answers) : Q :=
  if Qgtb (old_avg a) 0 then new_avg a / old_avg a else 1.

Definition burst_ratio (a : pattern_answers) : Q :=
  if Qgtb (avg_tx_per_month a) 0
  then inject_Z (max_tx a) / avg_tx_per_month a else 1.

Definition cash_deposit_rate (a : pattern_answers) : Q := cash_deposit a / 100.

Definition mode_entropy (a : pattern_answers) : Q :=
  let modes :=
    [ upi_pct a; neft_pct a; cash_deposit_rate a * 100;
      100 - upi_pct a - neft_pct a - cash_deposit_rate a * 100 ] in
  let modes := map (fun m => m / 100) (List.filter (fun m => Qgtb m 0) modes) in
  match modes with
  | [] => 0
  | _ :: _ => - foldl Qplus 0 (map (fun p => p * np_log2 (p + 1e-10)) modes)
  end.

Definition amount_change_ratio (a : pattern_answers) : Q :=
  if Qgtb (first_half_total a) 0
  then second_half_total a / first_half_total a else 1.

Definition gap_irregularity (a : pattern_answers) : Q :=
  if Qgtb (avg_gap_days a) 0
  then Qabs (inject_Z (max_gap_days a) - avg_gap_days a) / avg_gap_days a else 0.

Definition collect_pattern_data (a : pattern_answers) : dict :=
  <[ "avg_tx_per_month"%string := avg_tx_per_month a ]>
  (<[ "freq_cv"%string := freq_cv a ]>
  (<[ "velocity_change"%string := velocity_change a ]>
  (<[ "burst_ratio"%string := burst_ratio a ]>
  (<[ "weekend_pct"%string := weekend a / 100 ]>
  (<[ "night_hours_pct"%string := night_hours a / 100 ]>
  (<[ "round_amount_pct"%string := round_amount a / 100 ]>
  (<[ "near_50k_pct"%string := near_50k a / 100 ]>
  (<[ "near_200k_pct"%string := near_200k a / 100 ]>
  (<[ "num_unique_sources"%string := inject_Z (num_unique_sources a) ]>
  (<[ "source_concentration"%string := source_concentration a / 100 ]>
  (<[ "new_source_rate"%string := new_source a / 100 ]>
  (<[ "unverified_rate"%string := unverified a / 100 ]>
  (<[ "cash_deposit_rate"%string := cash_deposit_rate a ]>
  (<[ "mode_entropy"%string := mode_entropy a ]>
  (<[ "amount_change_ratio"%string := amount_change_ratio a ]>
  (<[ "max_gap_days"%string := inject_Z (max_gap_days a) ]>
  (<[ "avg_gap_days"%string := avg_gap_days a ]>
  (<[ "gap_irregularity"%string := gap_irregularity a ]> ∅)))))))))))))))))).

(** ** One analysis of [main]

    [ml_available] is what [AnomalyDetector.load] returned: loading catches
    every exception and answers [False].  [detect] is the loaded classifier
    applied to the collected data; it is external, and it may raise
    ([None]). *)

Record worker_data := WorkerData {
  sector : string;
  is_formal : Z;
  income_tier : string;
  account_age_months : Z
}.

Record analysis := Analysis {
  analysis_ml : ml_result;
  analysis_rules : list string;
  analysis_risk : risk_assessment
}.

Variable detect : worker_data -> dict -> dict -> option ml_result.

Definition analyse (ml_available : bool) (worker : worker_data)
    (monthly_incomes : list Q) (answers : pattern_answers) : option analysis :=
  let income_data := collect_monthly_income monthly_incomes in
  let pattern_data := collect_pattern_data answers in
  ml ← (if ml_available
        then detect worker pattern_data income_data
        else Some (MlResult false 0 0));
  let rule_anomalies := rule_based_detection income_data pattern_data in
  Some (Analysis ml rule_anomalies (display_results ml rule_anomalies)).

End Numpy.

(** ** The specification's reading of two income features

    These two definitions follow the words of the specification, not the
    code; they are what the code is compared with. *)

(** The months oldest first, for a series collected most recent first. *)
Definition chronological (monthly_incomes : list Q) : list Q :=
  rev monthly_incomes.

(** Month-over-month changes over adjacent pairs [(prev, curr)] in
    chronological order: [(curr - prev) / (prev + 1)]. *)
Definition claimed_mom_changes (monthly_incomes : list Q) : list Q :=
  let months := chronological monthly_incomes in
  zip_with (fun prev curr => (curr - prev) / (prev + 1)) months (tail months).

(** A month's deviation from the personal mean: [|amount - mean| / mean],
    and 0 if the mean is 0. *)
Definition claimed_deviation (mean amount : Q) : Q :=
  if Qeq_bool mean 0 then 0 else Qabs (amount - mean) / mean.

(** The fraction of months whose deviation exceeds 1.0. *)
Definition claimed_pct_high_deviation (incomes : list Q) : Q :=
  np_mean (of_bools
    (map (fun x => Qgtb (claimed_deviation (mean_income incomes) x) 1) incomes)).

(** ** The amount-change ratio over binary64

    The same two lines of [collect_pattern_data], with the numbers as the
    program has them: [get_float] returns a Python float, a binary64 value,
    and [/] is IEEE 754 division, which overflows to infinity. *)

Definition amount_change_ratio_f64
    (first_half_total second_half_total : float) : float :=
  if (0 <? first_half_total)%float
  then (second_half_total / first_half_total)%float
  else 1%float.

(** What [get_float(prompt, 0, 100000000)] accepts: [min_val <= value <= max_val]. *)
Definition accepted_amount (value : float) : bool :=
  ((0 <=? value) && (value <=? 100000000))%float.

(** ** Prompts ([get_yes_no], [get_integer], [get_float], [get_choice])

    The program reads its answers line by line from the terminal.  [inputs]
    is the list of lines still to be typed; a prompt returns its value with
    the lines left over.  [input()] raises [EOFError] when the lines run out,
    which no prompt catches: that is [None].

    [str.strip], [str.lower], [int] and [float] are Python's; the prompts are
    parametric in them.  [py_int] and [py_float] answer [None] where Python
    raises [ValueError]. *)

Section Prompts.

Variable strip : string -> string.
Variable lower : string -> string.
Variable py_int : string -> option Z.
Variable py_float : string -> option Q.

Fixpoint get_yes_no (default : bool) (inputs : list string)
    : option (bool * list string) :=
  match inputs with
  | [] => None
  | line :: rest =>
      let response := lower (strip line) in
      if String.eqb response "" then Some (default, rest)
      else if bool_decide (response ∈ ["y"; "yes"; "1"]%string)
      then Some (true, rest)
      else if bool_decide (response ∈ ["n"; "no"; "0"]%string)
      then Some (false, rest)
      else get_yes_no default rest
  end.

Fixpoint get_integer (min_val max_val : Z) (default : option Z)
    (inputs : list string) : option (Z * list string) :=
  match inputs with
  | [] => None
  | line :: rest =>
      let response := strip line in
      match default with
      | Some d =>
          if String.eqb response "" then Some (d, rest)
          else
            match py_int response with
            | Some value =>
                if ((min_val <=? value) && (value <=? max_val))%Z
                then Some (value, rest)
                else get_integer min_val max_val default rest
            | None => get_integer min_val max_val default rest
            end
      | None =>
          match py_int response with
          | Some value =>
              if ((min_val <=? value) && (value <=? max_val))%Z
              then Some (value, rest)
              else get_integer min_val max_val default rest
          | None => get_integer min_val max_val default rest
          end
      end
  end.

Fixpoint get_float (min_val max_val : Q) (default : option Q)
    (inputs : list string) : option (Q * list string) :=
  match inputs with
  | [] => None
  | line :: rest =>
      let response := strip line in
      match default with
      | Some d =>
          if String.eqb response "" then Some (d, rest)
          else
            match py_float response with
            | Some value =>
                if Qle_bool min_val value && Qle_bool value max_val
                then Some (value, rest)
                else get_float min_val max_val default rest
            | None => get_float min_val max_val default rest
            end
      | None =>
          match py_float response with
          | Some value =>
              if Qle_bool min_val value && Qle_bool value max_val
              then Some (value, rest)
              else get_float min_val max_val default rest
          | None => get_float min_val max_val default rest
          end
      end
  end.

(** [options[choice - 1]] for [1 <= choice <= len(options)] *)
Fixpoint get_choice (options : list string) (inputs : list string)
    : option (string * list string) :=
  match inputs with
  | [] => None
  | line :: rest =>
      match py_int (strip line) with
      | Some choice =>
          if ((1 <=? choice) && (choice <=? Z.of_nat (length options)))%Z
          then
            match options !! Z.to_nat (choice - 1) with
            | Some opt => Some (opt, rest)
            | None => None
            end
          else get_choice options rest
      | None => get_choice options rest
      end
  end.

(** A line [get_integer] does not accept: it does not stand for the default,
    and it is no integer or an integer out of bounds. *)
Definition rejected_integer (min_val max_val : Z) (default : option Z)
    (line : string) : Prop :=
  (default = None \/ strip line <> ""%string)
  /\ match py_int (strip line) with
     | Some value => (value < min_val \/ max_val < value)%Z
     | None => True
     end.

Definition rejected_float (min_val max_val : Q) (default : option Q)
    (line : string) : Prop :=
  (default = None \/ strip line <> ""%string)
  /\ match py_float (strip line) with
     | Some value => value < min_val \/ max_val < value
     | None => True
     end.

(** A line [get_choice] does not accept: no integer, or an integer that
    numbers no option. *)
Definition rejected_choice (options : list string) (line : string) : Prop :=
  match py_int (strip line) with
  | Some choice => (choice < 1 \/ Z.of_nat (length options) < choice)%Z
  | None => True
  end.

(** ** Data collection, the prompting part *)

Definition JOB_SECTORS : list string :=
  [ "agricultural_labor"; "construction"; "domestic_work"; "manufacturing";
    "retail_trade"; "transport"; "hospitality"; "healthcare_support";
    "it_services"; "govt_employee"; "self_employed"; "gig_worker";
    "skilled_artisan" ]%string.

Definition collect_worker_data (inputs : list string)
    : option (worker_data * list string) :=
  '(sector, inputs) ← get_choice JOB_SECTORS inputs;
  '(formal, inputs) ← get_yes_no false inputs;
  let is_formal := if formal : bool then 1%Z else 0%Z in
  '(income_tier, inputs) ← get_choice ["low"; "medium"; "high"]%string inputs;
  '(account_age_months, inputs) ← get_integer 1 600 (Some 24%Z) inputs;
  Some (WorkerData sector is_formal income_tier account_age_months, inputs).

(** The loop [for i in range(num_months)] of [collect_monthly_income]: each
    answer is appended, so the first answer, the most recent month, is at
    index 0. *)
Fixpoint read_incomes (num_months : nat) (inputs : list string)
    : option (list Q * list string) :=
  match num_months with
  | O => Some ([], inputs)
  | S n =>
      '(income, inputs) ← get_float 0 100000000 None inputs;
      '(monthly_incomes, inputs) ← read_incomes n inputs;
      Some (income :: monthly_incomes, inputs)
  end.

(** Lines 176 to 184 of [collect_monthly_income]: the number of months, then
    the months. *)
Definition read_monthly_incomes (inputs : list string)
    : option (list Q * list string) :=
  '(num_months, inputs) ← get_integer 6 24 (Some 12%Z) inputs;
  read_incomes (Z.to_nat num_months) inputs.

(** The prompts of [collect_pattern_data], in the order asked. *)
Definition read_pattern_answers (inputs : list string)
    : option (pattern_answers * list string) :=
  '(avg_tx_per_month, inputs) ← get_float 1 500 (Some 10) inputs;
  '(max_tx, inputs) ← get_integer 1 500 (Some 20%Z) inputs;
  '(old_avg, inputs) ← get_float 1 500 (Some avg_tx_per_month) inputs;
  '(new_avg, inputs) ← get_float 1 500 (Some avg_tx_per_month) inputs;
  '(weekend, inputs) ← get_float 0 100 (Some 10) inputs;
  '(night_hours, inputs) ← get_float 0 100 (Some 5) inputs;
  '(round_amount, inputs) ← get_float 0 100 (Some 15) inputs;
  '(near_50k, inputs) ← get_float 0 100 (Some 5) inputs;
  '(near_200k, inputs) ← get_float 0 100 (Some 2) inputs;
  '(num_unique_sources, inputs) ← get_integer 1 50 (Some 2%Z) inputs;
  '(source_concentration, inputs) ← get_float 0 100 (Some 80) inputs;
  '(new_source, inputs) ← get_float 0 100 (Some 10) inputs;
  '(unverified, inputs) ← get_float 0 100 (Some 20) inputs;
  '(cash_deposit, inputs) ← get_float 0 100 (Some 15) inputs;
  '(upi_pct, inputs) ← get_float 0 100 (Some 40) inputs;
  '(neft_pct, inputs) ← get_float 0 100 (Some 40) inputs;
  '(first_half_total, inputs) ← get_float 0 100000000 None inputs;
  '(second_half_total, inputs) ← get_float 0 100000000 None inputs;
  '(max_gap_days, inputs) ← get_integer 0 365 (Some 45%Z) inputs;
  '(avg_gap_days, inputs) ← get_float 1 365 (Some 15) inputs;
  Some (PatternAnswers avg_tx_per_month max_tx old_avg new_avg weekend
          night_hours round_amount near_50k near_200k num_unique_sources
          source_concentration new_source unverified cash_deposit upi_pct
          neft_pct first_half_total second_half_total max_gap_days
          avg_gap_days, inputs).

End Prompts.

(** The bounds the prompts of [collect_pattern_data] put on the answers. *)
Definition answers_in_bounds (a : pattern_answers) : Prop :=
  1 <= avg_tx_per_month a <= 500
  /\ (1 <= max_tx a <= 500)%Z
  /\ 1 <= old_avg a <= 500
  /\ 1 <= new_avg a <= 500
  /\ 0 <= weekend a <= 100
  /\ 0 <= night_hours a <= 100
  /\ 0 <= round_amount a <= 100
  /\ 0 <= near_50k a <= 100
  /\ 0 <= near_200k a <= 100
  /\ (1 <= num_unique_sources a <= 50)%Z
  /\ 0 <= source_concentration a <= 100
  /\ 0 <= new_source a <= 100
  /\ 0 <= unverified a <= 100
  /\ 0 <= cash_deposit a <= 100
  /\ 0 <= upi_pct a <= 100
  /\ 0 <= neft_pct a <= 100
  /\ 0 <= first_half_total a <= 100000000
  /\ 0 <= second_half_total a <= 100000000
  /\ (0 <= max_gap_days a <= 365)%Z
  /\ 1 <= avg_gap_days a <= 365.

(** ** The classifier's answer ([AnomalyDetector.detect])

    [round(x, 2)] over exact numbers: the nearest multiple of 1/100, a tie
    going to the even one. *)

Definition round_half_even (x : Q) : Z :=
  let f := Qfloor x in
  match Qcompare (x - inject_Z f) (1 # 2) with
  | Lt => f
  | Gt => (f + 1)%Z
  | Eq => if Z.even f then f else (f + 1)%Z
  end.

Definition round2 (x : Q) : Q := inject_Z (round_half_even (x * 100)) / 100.

(** [detect] once the model has answered: [has_predict_proba] is
    [hasattr(self.model, 'predict_proba')], [prediction] is
    [self.model.predict(X)[0]] and [probability_1] is
    [self.model.predict_proba(X)[0][1]]. *)
Definition detect_result (has_predict_proba : bool) (prediction : Z)
    (probability_1 : Q) : ml_result :=
  if has_predict_proba then
    let anomaly_score := probability_1 * 100 in
    MlResult (prediction =? 1)%Z (round2 anomaly_score)
             (round2 (Qmax anomaly_score (100 - anomaly_score)))
  else
    (* For Isolation Forest *)
    let prediction := if (prediction =? -1)%Z then 1%Z else 0%Z in
    let anomaly_score : Q := if (prediction =? 1)%Z then 50 else 10 in
    MlResult (prediction =? 1)%Z (round2 anomaly_score)
             (round2 (Qmax anomaly_score (100 - anomaly_score))).

(** ** What else [display_results] prints *)

(** The line under "Income Volatility (CV)". *)
Definition cv_band (income_data : dict) : string :=
  let cv := get income_data "income_cv" 0 in
  if Qltb cv 0.2 then "     (🟢 Very stable income)"
  else if Qltb cv 0.4 then "     (🟡 Normal variation)"
  else "     (🔴 High volatility - unusual)".

(** The description lines of PATTERN-BASED ANALYSIS: one for each anomaly
    that has an entry in [ANOMALY_DESCRIPTIONS]. *)
Definition description_lines (rule_anomalies : list string) : list string :=
  omap (fun anomaly =>
          (fun d => String.append "   " d) <$> ANOMALY_DESCRIPTIONS !! anomaly)
       rule_anomalies.

Definition said_if (rule_anomalies : list string) (anomaly line : string)
    : list string :=
  if bool_decide (anomaly ∈ rule_anomalies) then [line] else [].

(** The section PATTERN EXPLANATION: absent ([None]) unless the classifier
    or a rule found something; then the lines under its header. *)
Definition pattern_explanation (ml : ml_result) (rule_anomalies : list string)
    : option (list string) :=
  if is_anomaly ml || negb (bool_decide (rule_anomalies = [])) then
    Some
      (said_if rule_anomalies "sudden_spike"
         "   • Your income jumped significantly compared to YOUR normal"
       ++ said_if rule_anomalies "high_volatility"
         "   • Your monthly income varies more than typical for you"
       ++ said_if rule_anomalies "structuring"
         "   • Many transactions cluster near reporting thresholds"
       ++ said_if rule_anomalies "velocity_change"
         "   • Transaction frequency changed dramatically"
       ++ said_if rule_anomalies "new_sources"
         "   • Many new income sources appeared recently"
       ++ said_if rule_anomalies "ghost_income"
         "   • High rate of unverified income sources"
       ++ said_if rule_anomalies "irregular_timing"
         "   • Transactions at unusual times (nights/weekends)")
  else None.

(** The labels [pattern_explanation] has a line for. *)
Definition explained_labels : list string :=
  [ "sudden_spike"; "high_volatility"; "structuring"; "velocity_change";
    "new_sources"; "ghost_income"; "irregular_timing" ]%string.

(** The answers of a user who accepts every default of
    [collect_pattern_data]; the two half-period totals have no default. *)
Definition default_answers (first_half_total second_half_total : Q)
    : pattern_answers :=
  PatternAnswers 10 20 10 10 10 5 15 5 2 2 80 10 20 15 40 40
                 first_half_total second_half_total 45 15.

(** The labels of the three rules that read the income features. *)
Definition income_labels : list string :=
  [ "high_volatility"; "sudden_spike"; "pattern_break" ]%string.

(** The keys [rule_based_detection] reads. *)
Definition income_keys : list string :=
  [ "income_cv"; "max_mom_increase"; "max_deviation_from_mean" ]%string.

Definition pattern_keys : list string :=
  [ "near_50k_pct"; "near_200k_pct"; "round_amount_pct"; "night_hours_pct";
    "weekend_pct"; "velocity_change"; "burst_ratio"; "new_source_rate";
    "unverified_rate"; "max_gap_days"; "amount_change_ratio" ]%string.

(** ** The feature vector ([AnomalyDetector.preprocess])

    The values of the collected dictionaries: numbers, the strings of the
    worker profile and the list of monthly incomes. *)
Inductive pyval :=
  | Num (q : Q)
  | Str (s : string)
  | Lst (l : list Q).

(** The dictionary [collect_worker_data] returns. *)
Definition worker_dict (w : worker_data) : gmap string pyval :=
  <[ "sector"%string := Str (sector w) ]>
  (<[ "is_formal"%string := Num (inject_Z (is_formal w)) ]>
  (<[ "income_tier"%string := Str (income_tier w) ]>
  (<[ "account_age_months"%string := Num (inject_Z (account_age_months w)) ]>
   ∅))).

(** The dictionary [collect_monthly_income] returns, with its entry
    ['monthly_incomes']. *)
Definition income_dict (np_sqrt : Q -> Q) (monthly_incomes : list Q)
    : gmap string pyval :=
  <[ "monthly_incomes"%string := Lst monthly_incomes ]>
  (Num <$> collect_monthly_income np_sqrt monthly_incomes).

Definition pattern_dict (np_log2 : Q -> Q) (a : pattern_answers)
    : gmap string pyval :=
  Num <$> collect_pattern_data np_log2 a.

(** One turn of the loop over [categorical_cols].  An encoder's [transform]
    raises on a value it has not seen ([None]); the bare [except] then stores
    0. *)
Definition encode (label_encoders : gmap string (pyval -> option Z))
    (col : string) (data : gmap string pyval) : gmap string pyval :=
  match label_encoders !! col, data !! col with
  | Some encoder, Some value =>
      <[ String.append col "_encoded" :=
           Num (inject_Z (default 0%Z (encoder value))) ]> data
  | _, _ => data
  end.

(** [preprocess] up to the feature vector, before scaling:
    [{**worker_data, **pattern_data, **income_data}], the encoded columns,
    then one entry for each feature name, 0 for a name that is no key. *)
Definition feature_vector (label_encoders : gmap string (pyval -> option Z))
    (feature_names : list string)
    (worker_data pattern_data income_data : gmap string pyval) : list pyval :=
  let data := income_data ∪ pattern_data ∪ worker_data in
  let data := encode label_encoders "sector" data in
  let data := encode label_encoders "income_tier" data in
  map (fun feature => default (Num 0) (data !! feature)) feature_names.

(** The feature list the model is trained on ([pattern_features] of
    [train_colab.py]). *)
Definition pattern_features : list string :=
  [ "unverified_rate"; "weekend_pct"; "night_hours_pct";
    "source_concentration"; "num_unique_sources";
    "income_cv"; "max_deviation_from_mean"; "amount_range_ratio";
    "round_amount_pct"; "near_50k_pct"; "very_high_pct";
    "avg_tx_per_month"; "velocity_change"; "burst_ratio"; "freq_cv";
    "max_mom_increase"; "avg_mom_change"; "pct_high_deviation";
    "cash_deposit_rate" ]%string.

(** ** Sample readers

    For the instances at the end: [sample_int] and [sample_float] read the
    few lines typed there, as [int] and [float] would, and [as_typed] leaves
    a line as it is (these lines have nothing to strip or to lower). *)

Definition sample_int (s : string) : option Z :=
  if String.eqb s "1" then Some 1%Z
  else if String.eqb s "2" then Some 2%Z
  else if String.eqb s "6" then Some 6%Z
  else if String.eqb s "8" then Some 8%Z
  else if String.eqb s "99" then Some 99%Z
  else None.

Definition sample_float (s : string) : option Q :=
  if String.eqb s "12000" then Some 12000
  else if String.eqb s "250000" then Some 250000
  else if String.eqb s "-5" then Some (-5)
  else None.

Definition as_typed (s : string) : string := s.

(** * Properties *)

(** ** Comparisons and lookups *)

Lemma Qgtb_true (x y : Q) : Qgtb x y = true <-> y < x.
Proof.
  unfold Qgtb. rewrite negb_true_iff, <- not_true_iff_false, Qle_bool_iff.
  split; [apply Qnot_le_lt | apply Qlt_not_le].
Qed.

Lemma Qgtb_false (x y : Q) : Qgtb x y = false <-> x <= y.
Proof.
  unfold Qgtb. rewrite negb_false_iff. apply Qle_bool_iff.
Qed.

Lemma Qltb_true (x y : Q) : Qltb x y = true <-> x < y.
Proof. apply Qgtb_true. Qed.

Lemma Qgeb_true (x y : Q) : Qgeb x y = true <-> y <= x.
Proof. apply Qle_bool_iff. Qed.

Lemma Qgeb_false (x y : Q) : Qgeb x y = false <-> x < y.
Proof.
  unfold Qgeb. rewrite <- not_true_iff_false, Qle_bool_iff.
  split; [apply Qnot_le_lt | apply Qlt_not_le].
Qed.

Lemma get_Some (d : dict) k dflt v : d !! k = Some v -> get d k dflt = v.
Proof. unfold get. now intros ->. Qed.

Lemma get_None (d : dict) k dflt : d !! k = None -> get d k dflt = dflt.
Proof. unfold get. now intros ->. Qed.

(** ** The rule bank *)

Lemma elem_of_list_of_set (x : string) (xs : list string) :
  x ∈ list_of_set xs <-> x ∈ xs.
Proof.
  unfold list_of_set. rewrite elem_of_elements. apply elem_of_list_to_set.
Qed.

Lemma NoDup_list_of_set (xs : list string) : NoDup (list_of_set xs).
Proof. unfold list_of_set. apply NoDup_elements. Qed.

(** The source function is the bank run in source order. *)
Lemma rule_based_detection_evaluate (income_data pattern_data : dict) :
  rule_based_detection income_data pattern_data
  = evaluate rule_bank income_data pattern_data.
Proof. reflexivity. Qed.

Lemma elem_of_appended (bank : list rule) (income_data pattern_data : dict) :
  forall (anomalies : list string) (x : string),
    x ∈ appended bank income_data pattern_data anomalies <->
    x ∈ anomalies \/
    exists r, r ∈ bank /\ fires r income_data pattern_data = true /\ label r = x.
Proof.
  unfold appended.
  induction bank as [|r bank IH]; intros anomalies x; simpl.
  - split; [now left | intros [H | (r & Hr & _)]; [exact H | inversion Hr]].
  - rewrite IH. unfold step.
    destruct (fires r income_data pattern_data) eqn:Hf.
    + rewrite elem_of_app, list_elem_of_singleton. split.
      * intros [[H | ->] | (r' & Hr' & Hf' & Hl)].
        -- now left.
        -- right. exists r. split; [left | easy].
        -- right. exists r'. split; [now right | easy].
      * intros [H | (r' & Hr' & Hf' & Hl)]; [now left; left |].
        apply elem_of_cons in Hr' as [-> | Hr'].
        -- left. right. now symmetry.
        -- right. now exists r'.
    + split.
      * intros [H | (r' & Hr' & Hf' & Hl)]; [now left |].
        right. exists r'. split; [now right | easy].
      * intros [H | (r' & Hr' & Hf' & Hl)]; [now left |].
        apply elem_of_cons in Hr' as [-> | Hr']; [congruence |].
        right. now exists r'.
Qed.

Lemma elem_of_evaluate (bank : list rule) (income_data pattern_data : dict)
    (x : string) :
  x ∈ evaluate bank income_data pattern_data <->
  exists r, r ∈ bank /\ fires r income_data pattern_data = true /\ label r = x.
Proof.
  unfold evaluate. rewrite elem_of_list_of_set, elem_of_appended.
  split; [intros [H | H]; [inversion H | exact H] | now right].
Qed.

Lemma evaluate_Permutation (bank bank' : list rule)
    (income_data pattern_data : dict) (x : string) :
  bank' ≡ₚ bank ->
  x ∈ evaluate bank' income_data pattern_data <->
  x ∈ evaluate bank income_data pattern_data.
Proof.
  intros HP. rewrite !elem_of_evaluate.
  split; intros (r & Hr & H); exists r; split; try exact H.
  - now rewrite <- HP.
  - now rewrite HP.
Qed.

Lemma NoDup_count_occ_1 (xs : list string) (x : string) :
  NoDup xs -> x ∈ xs -> count_occ String.string_dec xs x = 1%nat.
Proof.
  intros Hnd Hx. apply NoDup_ListNoDup in Hnd.
  apply (proj1 (NoDup_count_occ' String.string_dec xs) Hnd).
  now apply list_elem_of_In.
Qed.

(** C5: for every feature record and pattern record, the output of the rule
    evaluator has no duplicate, its members are exactly the labels of the
    rules whose predicate holds, running the bank in any permuted order gives
    a duplicate-free list with the same members, and when the burst-ratio rule
    and the gap/amount-change rule both fire, 'dormant_burst' occurs exactly
    once. *)
Theorem rule_output_is_union_of_fired_labels (income_data pattern_data : dict) :
  NoDup (rule_based_detection income_data pattern_data)
  /\ (forall x : string,
        x ∈ rule_based_detection income_data pattern_data <->
        exists r, r ∈ rule_bank
                  /\ fires r income_data pattern_data = true /\ label r = x)
  /\ (forall bank' : list rule,
        bank' ≡ₚ rule_bank ->
        NoDup (evaluate bank' income_data pattern_data)
        /\ forall x : string,
             x ∈ evaluate bank' income_data pattern_data <->
             x ∈ rule_based_detection income_data pattern_data)
  /\ (fires burst_rule income_data pattern_data = true ->
      fires gap_rule income_data pattern_data = true ->
      count_occ String.string_dec
        (rule_based_detection income_data pattern_data) "dormant_burst" = 1%nat).
Proof.
  rewrite rule_based_detection_evaluate.
  split; [apply NoDup_list_of_set |].
  split; [intros x; apply elem_of_evaluate |].
  split.
  - intros bank' HP. split; [apply NoDup_list_of_set |].
    intros x. now apply evaluate_Permutation.
  - intros Hb _. apply NoDup_count_occ_1; [apply NoDup_list_of_set |].
    apply elem_of_evaluate. exists burst_rule. split; [| easy].
    unfold rule_bank. do 7 right. left.
Qed.

Lemma elem_of_rule_bank (r : rule) :
  r ∈ rule_bank -> label r ∈ producible_labels.
Proof.
  unfold rule_bank. intros Hr.
  repeat (apply elem_of_cons in Hr as [-> | Hr]);
    [ | | | | | | | | | | | | inversion Hr ];
    simpl; unfold producible_labels;
    repeat first [ apply list_elem_of_here | apply list_elem_of_further ].
Qed.

Lemma rule_output_producible (income_data pattern_data : dict) (x : string) :
  x ∈ rule_based_detection income_data pattern_data -> x ∈ producible_labels.
Proof.
  rewrite rule_based_detection_evaluate, elem_of_evaluate.
  intros (r & Hr & _ & <-). now apply elem_of_rule_bank.
Qed.

Lemma structuring_iff (income_data pattern_data : dict) :
  "structuring"%string ∈ rule_based_detection income_data pattern_data <->
  fires structuring_rule income_data pattern_data = true.
Proof.
  rewrite rule_based_detection_evaluate, elem_of_evaluate. split.
  - intros (r & Hr & Hf & Hl). unfold rule_bank in Hr.
    repeat (apply elem_of_cons in Hr as [-> | Hr]);
      try discriminate Hl; try exact Hf. inversion Hr.
  - intros Hf. exists structuring_rule. split; [| easy].
    unfold rule_bank. do 3 right. left.
Qed.

Lemma sudden_spike_iff (income_data pattern_data : dict) :
  "sudden_spike"%string ∈ rule_based_detection income_data pattern_data <->
  3 < get income_data "max_mom_increase" 0.
Proof.
  rewrite <- Qgtb_true, rule_based_detection_evaluate, elem_of_evaluate. split.
  - intros (r & Hr & Hf & Hl). unfold rule_bank in Hr.
    repeat (apply elem_of_cons in Hr as [-> | Hr]);
      try discriminate Hl; try exact Hf. inversion Hr.
  - intros Hf.
    exists (Rule (fun income_data _ => Qgtb (get income_data "max_mom_increase" 0) 3)
                 "sudden_spike").
    split; [| split; [exact Hf | easy]].
    unfold rule_bank. right. left.
Qed.

(** C9: whenever [near_50k_pct] is 0.35, whatever else the two records hold,
    'structuring' is in the output; and 'structuring' is in the output
    exactly when [near_50k_pct > 0.3] or [near_200k_pct > 0.2]. *)
Theorem structuring_triggered (income_data pattern_data : dict) :
  (forall v : Q,
     pattern_data !! "near_50k_pct"%string = Some v -> v == 0.35 ->
     "structuring"%string ∈ rule_based_detection income_data pattern_data)
  /\ ("structuring"%string ∈ rule_based_detection income_data pattern_data <->
      0.3 < get pattern_data "near_50k_pct" 0
      \/ 0.2 < get pattern_data "near_200k_pct" 0).
Proof.
  assert (Hiff :
    "structuring"%string ∈ rule_based_detection income_data pattern_data <->
    0.3 < get pattern_data "near_50k_pct" 0
    \/ 0.2 < get pattern_data "near_200k_pct" 0).
  { rewrite structuring_iff. simpl. rewrite orb_true_iff, !Qgtb_true. tauto. }
  split; [| exact Hiff].
  intros v Hv Hq. apply Hiff. left.
  rewrite (get_Some _ _ _ _ Hv), Hq. reflexivity.
Qed.

(** C10: every label in the output is one of the eleven labels the rules
    append; 'layering' and 'low_verification' have description entries but
    are never in the output. *)
Theorem rule_output_within_eleven_labels (income_data pattern_data : dict) :
  (forall x : string,
     x ∈ rule_based_detection income_data pattern_data ->
     x ∈ producible_labels)
  /\ length producible_labels = 11%nat
  /\ ("layering"%string ∉ rule_based_detection income_data pattern_data)
  /\ ("low_verification"%string ∉ rule_based_detection income_data pattern_data)
  /\ is_Some (ANOMALY_DESCRIPTIONS !! "layering"%string)
  /\ is_Some (ANOMALY_DESCRIPTIONS !! "low_verification"%string)
  /\ size ANOMALY_DESCRIPTIONS = 13%nat.
Proof.
  split; [intros x; apply rule_output_producible |].
  split; [reflexivity |].
  split; [| split].
  - intros H%rule_output_producible. unfold producible_labels in H.
    repeat (apply elem_of_cons in H as [H | H]; [discriminate H |]).
    inversion H.
  - intros H%rule_output_producible. unfold producible_labels in H.
    repeat (apply elem_of_cons in H as [H | H]; [discriminate H |]).
    inversion H.
  - split; [| split].
    + vm_compute. eauto.
    + vm_compute. eauto.
    + vm_compute. reflexivity.
Qed.

(** ** Risk assessment *)

Lemma display_results_score (ml : ml_result) (C : list string) :
  risk_score (display_results ml C)
  == Qmin (anomaly_score ml + 10 * len C) 100.
Proof.
  unfold display_results.
  assert (He :
    match C with
    | [] => anomaly_score ml
    | _ :: _ => anomaly_score ml + len C * 10
    end == anomaly_score ml + 10 * len C).
  { destruct C; [change (len []) with 0; lra | lra]. }
  destruct (Qgeb _ 70); [| destruct (Qgeb _ 40)]; simpl; now rewrite He.
Qed.

Lemma display_results_level (ml : ml_result) (C : list string) :
  let r := display_results ml C in
  (70 <= risk_score r -> risk_level r = HIGH_RISK)
  /\ (40 <= risk_score r -> risk_score r < 70 -> risk_level r = MEDIUM_RISK)
  /\ (risk_score r < 40 -> risk_level r = LOW_RISK).
Proof.
  unfold display_results.
  set (s := Qmin _ 100).
  destruct (Qgeb s 70) eqn:H70; [| destruct (Qgeb s 40) eqn:H40]; simpl.
  - apply Qgeb_true in H70. repeat split; intros; try reflexivity; lra.
  - apply Qgeb_false in H70. apply Qgeb_true in H40.
    repeat split; intros; try reflexivity; lra.
  - apply Qgeb_false in H70. apply Qgeb_false in H40.
    repeat split; intros; try reflexivity; lra.
Qed.

Lemma len_length (C : list string) (n : nat) :
  length C = n -> len C = inject_Z (Z.of_nat n).
Proof. unfold len. now intros ->. Qed.

(** C3: the risk score is [min(p + 10*|C|, 100)]; the level is HIGH from 70,
    MEDIUM from 40 and below 70, LOW below 40; p = 85 with no category gives 85
    and HIGH, p = 0 with four categories gives 40 and MEDIUM, p = 60 with five
    categories gives 100 and HIGH. *)
Theorem risk_score_and_tier (ml : ml_result) (C : list string) :
  let r := display_results ml C in
  risk_score r == Qmin (anomaly_score ml + 10 * len C) 100
  /\ (70 <= risk_score r -> risk_level r = HIGH_RISK)
  /\ (40 <= risk_score r -> risk_score r < 70 -> risk_level r = MEDIUM_RISK)
  /\ (risk_score r < 40 -> risk_level r = LOW_RISK)
  /\ (anomaly_score ml == 85 -> length C = 0%nat ->
      risk_score r == 85 /\ risk_level r = HIGH_RISK)
  /\ (anomaly_score ml == 0 -> length C = 4%nat ->
      risk_score r == 40 /\ risk_level r = MEDIUM_RISK)
  /\ (anomaly_score ml == 60 -> length C = 5%nat ->
      risk_score r == 100 /\ risk_level r = HIGH_RISK).
Proof.
  intros r.
  pose proof (display_results_score ml C) as Hs. fold r in Hs.
  destruct (display_results_level ml C) as (Hhi & Hmed & Hlo).
  fold r in Hhi, Hmed, Hlo.
  split; [exact Hs |]. split; [exact Hhi |].
  split; [exact Hmed |]. split; [exact Hlo |].
  split; [| split]; intros Hp Hn;
    rewrite Hp, (len_length _ _ Hn) in Hs.
  - assert (Hv : risk_score r == 85) by (rewrite Hs; reflexivity).
    split; [exact Hv | apply Hhi; rewrite Hv; lra].
  - assert (Hv : risk_score r == 40) by (rewrite Hs; reflexivity).
    split; [exact Hv | apply Hmed; rewrite Hv; lra].
  - assert (Hv : risk_score r == 100) by (rewrite Hs; reflexivity).
    split; [exact Hv | apply Hhi; rewrite Hv; lra].
Qed.

Lemma len_le (C1 C2 : list string) :
  (length C1 <= length C2)%nat -> len C1 <= len C2.
Proof. intros H. unfold len. rewrite <- Zle_Qle. lia. Qed.

(** C4: the risk score does not decrease when the classifier's probability
    grows (same categories), does not decrease when the number of triggered
    categories grows (same probability), and is at most 100. *)
Theorem risk_score_monotone_and_capped :
  (forall (ml1 ml2 : ml_result) (C : list string),
     anomaly_score ml1 <= anomaly_score ml2 ->
     risk_score (display_results ml1 C) <= risk_score (display_results ml2 C))
  /\ (forall (ml : ml_result) (C1 C2 : list string),
        (length C1 <= length C2)%nat ->
        risk_score (display_results ml C1) <= risk_score (display_results ml C2))
  /\ (forall (ml : ml_result) (C : list string),
        risk_score (display_results ml C) <= 100).
Proof.
  split; [| split].
  - intros ml1 ml2 C Hp. rewrite !display_results_score.
    apply Q.min_le_compat_r. lra.
  - intros ml C1 C2 Hn%len_le. rewrite !display_results_score.
    apply Q.min_le_compat_r. lra.
  - intros ml C. rewrite display_results_score. apply Q.le_min_r.
Qed.

(** C6: with the classifier unavailable the analysis still returns a result;
    its anomaly probability is 0 and its risk score is [min(10*|C|, 100)] for
    the set C the rules triggered. *)
Theorem rule_only_when_classifier_unavailable
    (np_sqrt np_log2 : Q -> Q)
    (detect : worker_data -> dict -> dict -> option ml_result)
    (worker : worker_data) (monthly_incomes : list Q) (answers : pattern_answers) :
  exists a : analysis,
    analyse np_sqrt np_log2 detect false worker monthly_incomes answers = Some a
    /\ anomaly_score (analysis_ml a) = 0
    /\ analysis_rules a
       = rule_based_detection (collect_monthly_income np_sqrt monthly_incomes)
                              (collect_pattern_data np_log2 answers)
    /\ risk_score (analysis_risk a) == Qmin (10 * len (analysis_rules a)) 100.
Proof.
  unfold analyse. cbn [mbind option_bind]. eexists. split; [reflexivity |].
  cbn [analysis_ml analysis_rules analysis_risk anomaly_score].
  split; [reflexivity |]. split; [reflexivity |].
  rewrite display_results_score. cbn [anomaly_score].
  apply Q.min_compat; [lra | reflexivity].
Qed.

(** ** Monthly income features *)

Lemma mean_income_single (x : Q) : mean_income [x] == x.
Proof. unfold mean_income, np_mean, np_sum. simpl. field. Qed.

Lemma Qdiv_0_l (y : Q) : 0 / y == 0.
Proof. unfold Qdiv. ring. Qed.

Lemma Qabs_self_minus (x y : Q) : y == x -> Qabs (x - y) == 0.
Proof.
  intros ->. assert (x - x == 0) as -> by ring. reflexivity.
Qed.

(** The code's changes are those of adjacent pairs read in list order: the
    entry at index [i] is the first component, the entry at [i+1] the
    second. *)
Lemma mom_changes_pairs (incomes : list Q) :
  mom_changes incomes
  = zip_with (fun here next => (next - here) / (here + 1)) incomes (tail incomes).
Proof.
  unfold mom_changes, np_diff, all_but_last_plus_1.
  induction incomes as [|a incomes IH]; [reflexivity |].
  destruct incomes as [|b incomes]; [reflexivity |].
  simpl in *. f_equal. exact IH.
Qed.

(** C8: for a series of one month with a non-negative amount, the income CV,
    the three month-over-month fields and the two deviation fields are 0. *)
Theorem single_month_features_zero (np_sqrt : Q -> Q) (x : Q) :
  0 <= x ->
  income_cv np_sqrt [x] == 0
  /\ max_increase [x] == 0
  /\ max_decrease [x] == 0
  /\ avg_change [x] == 0
  /\ max_deviation_from_mean [x] == 0
  /\ pct_high_deviation [x] == 0.
Proof.
  intros Hx.
  pose proof (mean_income_single x) as Hm.
  split; [| split; [reflexivity | split; [reflexivity | split; [reflexivity |]]]].
  - unfold income_cv. destruct (Qgtb (mean_income [x]) 0); [| reflexivity].
    change (std_income np_sqrt [x]) with 0. apply Qdiv_0_l.
  - split.
    + unfold max_deviation_from_mean. cbv zeta.
      destruct (Qgtb (mean_income [x]) 0); [| reflexivity].
      cbn [map np_max foldl].
      rewrite (Qabs_self_minus x (mean_income [x]) Hm). apply Qdiv_0_l.
    + unfold pct_high_deviation. cbv zeta. cbn [map].
      assert (Hb : Qgtb (Qabs (x - mean_income [x]) / (mean_income [x] + 1)) 1
                   = false).
      { apply Qgtb_false.
        rewrite (Qabs_self_minus x (mean_income [x]) Hm), Qdiv_0_l. lra. }
      rewrite Hb. reflexivity.
Qed.

(** A series of zeros: the mean guard makes the CV and both deviation fields
    0, whatever [np_sqrt] is. *)
Lemma np_sum_zeros (n : nat) : np_sum (repeat 0 n) == 0.
Proof.
  unfold np_sum. generalize 0 at 1 3 as acc.
  induction n as [|n IH]; intros acc; simpl; [reflexivity |].
  rewrite IH. ring.
Qed.

Lemma mean_income_zeros (n : nat) : mean_income (repeat 0 n) == 0.
Proof.
  unfold mean_income, np_mean.
  destruct (Nat.ltb _ _); [| reflexivity].
  rewrite np_sum_zeros. apply Qdiv_0_l.
Qed.

Lemma np_mean_zeros (n : nat) : np_mean (repeat 0 n) == 0.
Proof. unfold np_mean. rewrite np_sum_zeros. apply Qdiv_0_l. Qed.

Lemma zero_series_features (np_sqrt : Q -> Q) (n : nat) :
  income_cv np_sqrt (repeat 0 n) = 0
  /\ max_deviation_from_mean (repeat 0 n) = 0
  /\ pct_high_deviation (repeat 0 n) == 0.
Proof.
  pose proof (mean_income_zeros n) as Hm.
  assert (Hg : Qgtb (mean_income (repeat 0 n)) 0 = false)
    by (apply Qgtb_false; rewrite Hm; lra).
  split; [| split].
  - unfold income_cv. now rewrite Hg.
  - unfold max_deviation_from_mean. cbv zeta. now rewrite Hg.
  - unfold pct_high_deviation. cbv zeta. rewrite map_repeat.
    assert (Hb : Qgtb (Qabs (0 - mean_income (repeat 0 n))
                       / (mean_income (repeat 0 n) + 1)) 1 = false).
    { apply Qgtb_false. rewrite Hm. vm_compute. discriminate. }
    rewrite Hb. unfold of_bools. rewrite map_repeat. apply np_mean_zeros.
Qed.

(** The claimed array is the code's array of the series read backwards: the
    code pairs each month with the month typed after it, which for a series
    typed most recent first is the month before it. *)
Lemma claimed_mom_changes_rev (monthly_incomes : list Q) :
  claimed_mom_changes monthly_incomes = mom_changes (rev monthly_incomes).
Proof.
  unfold claimed_mom_changes, chronological. cbv zeta.
  now rewrite mom_changes_pairs.
Qed.

Lemma get_max_mom_increase (np_sqrt : Q -> Q) (monthly_incomes : list Q) :
  get (collect_monthly_income np_sqrt monthly_incomes) "max_mom_increase" 0
  = max_increase monthly_incomes.
Proof.
  apply get_Some. unfold collect_monthly_income. cbv zeta.
  rewrite lookup_insert_ne by discriminate. apply lookup_insert_eq.
Qed.

(** C1, at a series whose most recent month is a fivefold spike: the code's
    changes run from each month to the month typed after it, that is to the
    month before it, so the spike is read as a decrease: [max_mom_increase]
    is 0 and [max_mom_decrease] is 40000/50001, where the chronological
    pairs of the claim give a maximum increase of 40000/10001, above 3; the
    rule 'sudden_spike' does not fire. *)
Theorem recent_spike_is_read_as_a_decrease
    (np_sqrt : Q -> Q) (pattern_data : dict) :
  let monthly_incomes := [50000; 10000; 10000; 10000; 10000; 10000] in
  max_increase monthly_incomes == 0
  /\ max_decrease monthly_incomes == 40000 / 50001
  /\ np_max (claimed_mom_changes monthly_incomes) == 40000 / 10001
  /\ 3 < np_max (claimed_mom_changes monthly_incomes)
  /\ ("sudden_spike"%string ∉
        rule_based_detection (collect_monthly_income np_sqrt monthly_incomes)
                             pattern_data).
Proof.
  intros monthly_incomes.
  assert (Hinc : max_increase monthly_incomes == 0) by (vm_compute; reflexivity).
  split; [exact Hinc |].
  split; [vm_compute; reflexivity |].
  split; [vm_compute; reflexivity |].
  split; [vm_compute; reflexivity |].
  rewrite sudden_spike_iff, get_max_mom_increase.
  fold monthly_incomes. rewrite Hinc. lra.
Qed.

(** ** The deviation fields *)

Lemma foldl_Qplus_acc (l : list Q) :
  forall acc : Q, foldl Qplus acc l == acc + np_sum l.
Proof.
  unfold np_sum. induction l as [|x l IH]; intros acc; simpl.
  - ring.
  - rewrite (IH (acc + x)), (IH (0 + x)). ring.
Qed.

Lemma np_sum_cons (x : Q) (l : list Q) : np_sum (x :: l) == x + np_sum l.
Proof.
  unfold np_sum at 1. simpl. rewrite foldl_Qplus_acc. ring.
Qed.

Lemma np_sum_nonneg (l : list Q) :
  Forall (fun x => 0 <= x) l -> 0 <= np_sum l.
Proof.
  induction 1 as [|x l Hx _ IH]; [vm_compute; discriminate |].
  rewrite np_sum_cons. lra.
Qed.

Lemma inject_length_pos {A : Type} (l : list A) :
  l <> [] -> 0 < inject_Z (Z.of_nat (length l)).
Proof.
  intros Hl. destruct l as [|a l]; [congruence |].
  change 0 with (inject_Z 0). rewrite <- Zlt_Qlt. simpl. lia.
Qed.

Lemma mean_income_nonneg (incomes : list Q) :
  Forall (fun x => 0 <= x) incomes -> 0 <= mean_income incomes.
Proof.
  intros Hpos. unfold mean_income, np_mean.
  destruct incomes as [|x l]; [vm_compute; discriminate |].
  change (0 <? length (x :: l))%nat with true. cbv iota.
  apply Qle_shift_div_l.
  - now apply inject_length_pos.
  - rewrite Qmult_0_l. now apply np_sum_nonneg.
Qed.

Lemma inject_succ (n : nat) :
  inject_Z (Z.of_nat (S n)) == 1 + inject_Z (Z.of_nat n).
Proof.
  rewrite Nat2Z.inj_succ. unfold Z.succ. rewrite inject_Z_plus. ring.
Qed.

(** The sum of a boolean array counts its [True] entries. *)
Lemma np_sum_of_bools (p : Q -> bool) (l : list Q) :
  np_sum (of_bools (map p l))
  == inject_Z (Z.of_nat (length (List.filter p l))).
Proof.
  induction l as [|x l IH]; [reflexivity |].
  unfold of_bools in *. simpl map. rewrite np_sum_cons, IH. simpl List.filter.
  destruct (p x).
  - simpl length. rewrite inject_succ. reflexivity.
  - ring.
Qed.

Lemma np_max_zeros {A : Type} (l : list A) : np_max (map (fun _ => 0) l) = 0.
Proof.
  destruct l as [|a l]; [reflexivity |]. simpl.
  induction l as [|b l IH]; [reflexivity | exact IH].
Qed.

Lemma exceeds_one_iff (a c : Q) :
  0 < c -> Qgtb (a / c) 1 = Qgtb a c.
Proof.
  intros Hc. apply eq_true_iff_eq. rewrite !Qgtb_true.
  rewrite <- (Qmult_lt_r 1 (a / c) c Hc).
  assert (a / c * c == a) as -> by (field; lra).
  now rewrite Qmult_1_l.
Qed.

(** What the two deviation fields compute, over exact numbers, for a series
    of non-negative amounts: [max_deviation_from_mean] is the maximum over
    the months of [|amount - mean| / mean], and 0 if the mean is 0, as the
    training code has it; [pct_high_deviation] counts the months with
    [|amount - mean| > mean + 1], where the training code counts those with
    [|amount - mean| > mean]. *)
Lemma deviation_fields (incomes : list Q) :
  incomes <> [] ->
  Forall (fun x => 0 <= x) incomes ->
  let mean := mean_income incomes in
  max_deviation_from_mean incomes = np_max (map (claimed_deviation mean) incomes)
  /\ pct_high_deviation incomes
     == inject_Z (Z.of_nat (length
          (List.filter (fun x => Qgtb (Qabs (x - mean)) (mean + 1)) incomes)))
        / inject_Z (Z.of_nat (length incomes)).
Proof.
  intros Hne Hpos mean.
  pose proof (mean_income_nonneg incomes Hpos) as Hm. fold mean in Hm.
  split.
  - unfold max_deviation_from_mean. cbv zeta. fold mean.
    destruct (Qgtb mean 0) eqn:Hg.
    + apply Qgtb_true in Hg. f_equal. apply map_ext. intros x.
      unfold claimed_deviation.
      destruct (Qeq_bool mean 0) eqn:He; [| reflexivity].
      apply Qeq_bool_iff in He. lra.
    + apply Qgtb_false in Hg.
      assert (He : Qeq_bool mean 0 = true) by (apply Qeq_eq_bool; lra).
      unfold claimed_deviation. rewrite He. symmetry. apply np_max_zeros.
  - unfold pct_high_deviation. cbv zeta. fold mean. unfold np_mean.
    rewrite np_sum_of_bools. unfold of_bools. rewrite !length_map.
    rewrite (List.filter_ext _ (fun x => Qgtb (Qabs (x - mean)) (mean + 1)));
      [reflexivity |].
    intros x. apply exceeds_one_iff. lra.
Qed.

(** C2, at a series of mean 1 with one month of 3: that month deviates from
    the mean by 2, so the fraction of months whose deviation
    [|amount - mean| / mean] exceeds 1.0 is 1/6, as the claim and the training
    code have it; line 207 divides by [mean + 1] instead, finds no such month,
    and the code's [pct_high_deviation] is 0. *)
Lemma pct_high_deviation_not_claimed :
  mean_income [3; 0; 1; 1; 1; 0] == 1
  /\ claimed_pct_high_deviation [3; 0; 1; 1; 1; 0] == 1 / 6
  /\ pct_high_deviation [3; 0; 1; 1; 1; 0] == 0
  /\ ~ pct_high_deviation [3; 0; 1; 1; 1; 0]
       == claimed_pct_high_deviation [3; 0; 1; 1; 1; 0].
Proof.
  split; [vm_compute; reflexivity |].
  split; [vm_compute; reflexivity |].
  split; [vm_compute; reflexivity |].
  intros H. vm_compute in H. discriminate H.
Qed.

(** ** The amount-change ratio over binary64 *)

(** C7, at the answers 1e-301 and 100000000 to the two half-period totals,
    both within what [get_float] accepts: the first total is positive, so the
    guard lets the division through, and the quotient overflows:
    ['amount_change_ratio'] is infinity. *)
#[warnings="-inexact-float"]
Theorem amount_change_ratio_overflows :
  accepted_amount 1e-301 = true
  /\ accepted_amount 100000000 = true
  /\ amount_change_ratio_f64 1e-301 100000000 = infinity
  /\ is_infinity (amount_change_ratio_f64 1e-301 100000000) = true.
Proof. repeat split; reflexivity. Qed.

(** ** Instances

    Each statement above that has hypotheses, applied at a concrete input. *)

Lemma rule_output_is_union_of_fired_labels_witness :
  count_occ String.string_dec
    (rule_based_detection ∅
       (<[ "burst_ratio"%string := 6 ]>
        (<[ "max_gap_days"%string := 120 ]>
         (<[ "amount_change_ratio"%string := 3 ]> ∅))))
    "dormant_burst" = 1%nat.
Proof.
  apply rule_output_is_union_of_fired_labels; vm_compute; reflexivity.
Defined.

Lemma structuring_triggered_witness :
  "structuring"%string ∈
    rule_based_detection ∅ (<[ "near_50k_pct"%string := 0.35 ]> ∅).
Proof.
  apply (proj1 (structuring_triggered ∅ (<[ "near_50k_pct"%string := 0.35 ]> ∅))
           0.35); reflexivity.
Defined.

Lemma risk_score_and_tier_witness :
  let r := display_results (MlResult true 60 60)
             [ "structuring"; "round_amounts"; "new_sources"; "ghost_income";
               "weekend_heavy" ]%string in
  risk_score r == 100 /\ risk_level r = HIGH_RISK.
Proof.
  intros r.
  destruct (risk_score_and_tier (MlResult true 60 60)
              [ "structuring"; "round_amounts"; "new_sources"; "ghost_income";
                "weekend_heavy" ]%string) as (_ & _ & _ & _ & _ & _ & H).
  apply H; reflexivity.
Defined.

Lemma risk_score_monotone_and_capped_witness :
  risk_score (display_results (MlResult false 20 80) [ "structuring"%string ])
  <= risk_score (display_results (MlResult true 60 60) [ "structuring"%string ]).
Proof.
  apply (proj1 risk_score_monotone_and_capped). simpl. lra.
Defined.

Lemma single_month_features_zero_witness :
  0 <= 12000
  /\ income_cv (fun q : Q => q) [12000] == 0
  /\ max_increase [12000] == 0
  /\ max_decrease [12000] == 0
  /\ avg_change [12000] == 0
  /\ max_deviation_from_mean [12000] == 0
  /\ pct_high_deviation [12000] == 0.
Proof.
  split; [lra | apply (single_month_features_zero (fun q : Q => q) 12000); lra].
Defined.

Lemma deviation_fields_witness :
  let incomes := [3; 0; 1; 1; 1; 0] in
  max_deviation_from_mean incomes
  = np_max (map (claimed_deviation (mean_income incomes)) incomes)
  /\ pct_high_deviation incomes
     == inject_Z (Z.of_nat (length
          (List.filter (fun x => Qgtb (Qabs (x - mean_income incomes))
                                      (mean_income incomes + 1)) incomes)))
        / inject_Z (Z.of_nat (length incomes)).
Proof.
  apply (deviation_fields [3; 0; 1; 1; 1; 0]).
  - discriminate.
  - repeat constructor; vm_compute; discriminate.
Defined.

(** * Further properties *)

(** ** Prompts *)

Section PromptProperties.

Variable strip : string -> string.
Variable lower : string -> string.
Variable py_int : string -> option Z.
Variable py_float : string -> option Q.

Lemma get_integer_value (min_val max_val : Z) (default : option Z)
    (inputs : list string) :
  forall (v : Z) (rest : list string),
    get_integer strip py_int min_val max_val default inputs = Some (v, rest) ->
    default = Some v \/ (min_val <= v <= max_val)%Z.
Proof.
  induction inputs as [|line inputs IH]; intros v rest H; [discriminate H |].
  simpl in H.
  destruct default as [d|].
  - destruct (String.eqb (strip line) "").
    + injection H as <- _. now left.
    + destruct (py_int (strip line)) as [value|]; [| now apply IH in H].
      destruct ((min_val <=? value)%Z && (value <=? max_val)%Z) eqn:Hb;
        [| now apply IH in H].
      injection H as <- _. right. lia.
  - destruct (py_int (strip line)) as [value|]; [| now apply IH in H].
    destruct ((min_val <=? value)%Z && (value <=? max_val)%Z) eqn:Hb;
      [| now apply IH in H].
    injection H as <- _. right. lia.
Qed.

Lemma get_float_value (min_val max_val : Q) (default : option Q)
    (inputs : list string) :
  forall (v : Q) (rest : list string),
    get_float strip py_float min_val max_val default inputs = Some (v, rest) ->
    default = Some v \/ (min_val <= v <= max_val).
Proof.
  induction inputs as [|line inputs IH]; intros v rest H; [discriminate H |].
  simpl in H.
  destruct default as [d|].
  - destruct (String.eqb (strip line) "").
    + injection H as <- _. now left.
    + destruct (py_float (strip line)) as [value|]; [| now apply IH in H].
      destruct (Qle_bool min_val value && Qle_bool value max_val) eqn:Hb;
        [| now apply IH in H].
      injection H as <- _. right.
      apply andb_true_iff in Hb as [H1 H2].
      now rewrite !Qle_bool_iff in *.
  - destruct (py_float (strip line)) as [value|]; [| now apply IH in H].
    destruct (Qle_bool min_val value && Qle_bool value max_val) eqn:Hb;
      [| now apply IH in H].
    injection H as <- _. right.
    apply andb_true_iff in Hb as [H1 H2].
    now rewrite !Qle_bool_iff in *.
Qed.

(** X1: the integer [get_integer] returns is the default or lies within the
    bounds; with a default within the bounds, every integer it returns does. *)
Theorem get_integer_within_bounds (min_val max_val : Z) (default : option Z)
    (inputs : list string) (v : Z) (rest : list string) :
  get_integer strip py_int min_val max_val default inputs = Some (v, rest) ->
  (default = Some v \/ (min_val <= v <= max_val)%Z)
  /\ ((forall d : Z, default = Some d -> (min_val <= d <= max_val)%Z) ->
      (min_val <= v <= max_val)%Z).
Proof.
  intros H. apply get_integer_value in H. split; [exact H |].
  intros Hd. destruct H as [H | H]; [now apply Hd | exact H].
Qed.

(** X2: [get_integer] asks again after every line it does not accept: lines
    that are not integers, or integers out of bounds, change nothing of the
    result, and when only such lines are typed it never returns. *)
Theorem get_integer_asks_again (min_val max_val : Z) (default : option Z)
    (skipped inputs : list string) :
  Forall (rejected_integer strip py_int min_val max_val default) skipped ->
  get_integer strip py_int min_val max_val default (skipped ++ inputs)
  = get_integer strip py_int min_val max_val default inputs
  /\ get_integer strip py_int min_val max_val default skipped = None.
Proof.
  induction 1 as [|line skipped [Hd Hv] _ [IH1 IH2]]; [now split |].
  simpl.
  assert (He : default = None \/ String.eqb (strip line) "" = false).
  { destruct Hd as [-> | Hd]; [now left | right]. now apply String.eqb_neq. }
  destruct (py_int (strip line)) as [value|].
  - assert (Hb : ((min_val <=? value)%Z && (value <=? max_val)%Z) = false).
    { apply andb_false_iff. destruct Hv; [left | right]; lia. }
    rewrite Hb. destruct default as [d|]; [| now split].
    destruct He as [He | ->]; [discriminate He | now split].
  - destruct default as [d|]; [| now split].
    destruct He as [He | ->]; [discriminate He | now split].
Qed.

(** X3: the number [get_float] returns is the default or lies within the
    bounds, and [get_float] asks again after every line that is no number or
    a number out of bounds. *)
Theorem get_float_within_bounds_or_again (min_val max_val : Q)
    (default : option Q) (skipped inputs : list string) :
  Forall (rejected_float strip py_float min_val max_val default) skipped ->
  get_float strip py_float min_val max_val default (skipped ++ inputs)
  = get_float strip py_float min_val max_val default inputs
  /\ get_float strip py_float min_val max_val default skipped = None
  /\ forall (v : Q) (rest : list string),
       get_float strip py_float min_val max_val default inputs = Some (v, rest) ->
       default = Some v \/ (min_val <= v <= max_val).
Proof.
  intros Hs.
  assert (Hskip :
    get_float strip py_float min_val max_val default (skipped ++ inputs)
    = get_float strip py_float min_val max_val default inputs
    /\ get_float strip py_float min_val max_val default skipped = None).
  { induction Hs as [|line skipped [Hd Hv] _ [IH1 IH2]]; [now split |].
    simpl.
    assert (He : default = None \/ String.eqb (strip line) "" = false).
    { destruct Hd as [-> | Hd]; [now left | right]. now apply String.eqb_neq. }
    destruct (py_float (strip line)) as [value|].
    - assert (Hb : Qle_bool min_val value && Qle_bool value max_val = false).
      { apply andb_false_iff.
        destruct Hv as [Hv | Hv]; [left | right];
          apply not_true_iff_false; rewrite Qle_bool_iff; lra. }
      rewrite Hb. destruct default as [d|]; [| now split].
      destruct He as [He | ->]; [discriminate He | now split].
    - destruct default as [d|]; [| now split].
      destruct He as [He | ->]; [discriminate He | now split]. }
  destruct Hskip as [H1 H2]. split; [exact H1 |]. split; [exact H2 |].
  apply get_float_value.
Qed.

Lemma get_choice_elem (options inputs : list string) :
  forall (opt : string) (rest : list string),
    get_choice strip py_int options inputs = Some (opt, rest) ->
    opt ∈ options.
Proof.
  induction inputs as [|line inputs IH]; intros opt rest H; [discriminate H |].
  simpl in H.
  destruct (py_int (strip line)) as [choice|]; [| now apply IH in H].
  destruct ((1 <=? choice)%Z && (choice <=? Z.of_nat (length options))%Z);
    [| now apply IH in H].
  destruct (options !! Z.to_nat (choice - 1)) as [o|] eqn:Ho; [| discriminate H].
  injection H as <- _. now apply list_elem_of_lookup_2 in Ho.
Qed.

Lemma get_choice_asks_again (options skipped inputs : list string) :
  Forall (rejected_choice strip py_int options) skipped ->
  get_choice strip py_int options (skipped ++ inputs)
  = get_choice strip py_int options inputs.
Proof.
  induction 1 as [|line skipped Hr _ IH]; [reflexivity |].
  simpl. unfold rejected_choice in Hr.
  destruct (py_int (strip line)) as [choice|]; [| exact IH].
  assert (Hb : ((1 <=? choice)%Z
                && (choice <=? Z.of_nat (length options))%Z) = false)
    by (apply andb_false_iff; destruct Hr; [left | right]; lia).
  now rewrite Hb.
Qed.

(** X4: what [get_choice] returns is one of the options; with no option to
    choose from it never returns; and it returns [options[choice - 1]] for
    the first answer that numbers an option, after any number of answers
    that are no integer or number no option, leaving the lines typed after
    that answer. *)
Theorem get_choice_returns_an_option (options inputs : list string) :
  (forall (opt : string) (rest : list string),
     get_choice strip py_int options inputs = Some (opt, rest) ->
     opt ∈ options)
  /\ get_choice strip py_int [] inputs = None
  /\ (forall (skipped : list string) (line : string) (choice : Z),
        Forall (rejected_choice strip py_int options) skipped ->
        py_int (strip line) = Some choice ->
        (1 <= choice <= Z.of_nat (length options))%Z ->
        exists opt,
          options !! Z.to_nat (choice - 1) = Some opt
          /\ get_choice strip py_int options (skipped ++ line :: inputs)
             = Some (opt, inputs)).
Proof.
  split; [apply get_choice_elem |]. split.
  - induction inputs as [|line inputs IH]; [reflexivity |].
    simpl. destruct (py_int (strip line)) as [choice|]; [| exact IH].
    destruct (_ && _) eqn:Hb; [| exact IH].
    apply andb_true_iff in Hb as [H1 H2].
    apply Z.leb_le in H1. apply Z.leb_le in H2. simpl in H2. lia.
  - intros skipped line choice Hs Hc Hr.
    rewrite (get_choice_asks_again options skipped (line :: inputs) Hs).
    simpl. rewrite Hc.
    assert (Hb : ((1 <=? choice)%Z
                  && (choice <=? Z.of_nat (length options))%Z) = true)
      by (apply andb_true_iff; lia).
    rewrite Hb.
    destruct (options !! Z.to_nat (choice - 1)) as [o|] eqn:Ho.
    + now exists o.
    + apply lookup_ge_None in Ho. lia.
Qed.

(** X5: when [collect_worker_data] returns, the sector is one of
    [JOB_SECTORS], the formal-sector flag is 0 or 1, the income tier is low,
    medium or high, and the account age is between 1 and 600 months. *)
Theorem collect_worker_data_fields (inputs : list string)
    (w : worker_data) (rest : list string) :
  collect_worker_data strip lower py_int inputs = Some (w, rest) ->
  sector w ∈ JOB_SECTORS
  /\ (is_formal w = 0 \/ is_formal w = 1)%Z
  /\ income_tier w ∈ ["low"; "medium"; "high"]%string
  /\ (1 <= account_age_months w <= 600)%Z.
Proof.
  unfold collect_worker_data. intros H.
  destruct (get_choice strip py_int JOB_SECTORS inputs)
    as [[s i1]|] eqn:E1; [| discriminate H].
  cbn [mbind option_bind] in H.
  destruct (get_yes_no strip lower false i1) as [[f i2]|] eqn:E2;
    [| discriminate H].
  cbn [mbind option_bind] in H.
  destruct (get_choice strip py_int _ i2) as [[t i3]|] eqn:E3;
    [| discriminate H].
  cbn [mbind option_bind] in H.
  destruct (get_integer strip py_int 1 600 (Some 24%Z) i3)
    as [[a i4]|] eqn:E4; [| discriminate H].
  cbn [mbind option_bind] in H. injection H as <- _.
  cbn [sector is_formal income_tier account_age_months].
  split; [now apply get_choice_elem in E1 |].
  split; [destruct f; [now right | now left] |].
  split; [now apply get_choice_elem in E3 |].
  apply get_integer_value in E4 as [E4 | E4]; [| exact E4].
  injection E4 as <-. lia.
Qed.

Lemma read_incomes_spec (n : nat) :
  forall (inputs : list string) (incomes : list Q) (rest : list string),
    read_incomes strip py_float n inputs = Some (incomes, rest) ->
    length incomes = n
    /\ Forall (fun x => 0 <= x <= 100000000) incomes.
Proof.
  induction n as [|n IH]; intros inputs incomes rest H; simpl in H.
  - injection H as <- _. now split.
  - destruct (get_float strip py_float 0 100000000 None inputs)
      as [[x i1]|] eqn:E1; [| discriminate H].
    cbn [mbind option_bind] in H.
    destruct (read_incomes strip py_float n i1) as [[l i2]|] eqn:E2;
      [| discriminate H].
    cbn [mbind option_bind] in H. injection H as <- _.
    apply IH in E2 as [Hl Hf].
    apply get_float_value in E1 as [E1 | E1]; [discriminate E1 |].
    split; [simpl; now rewrite Hl | now constructor].
Qed.

(** X6: when the income prompts return, the series has between 6 and 24
    months and every amount is between 0 and 100000000. *)
Theorem read_monthly_incomes_shape (inputs : list string)
    (monthly_incomes : list Q) (rest : list string) :
  read_monthly_incomes strip py_int py_float inputs
  = Some (monthly_incomes, rest) ->
  (6 <= length monthly_incomes <= 24)%nat
  /\ Forall (fun x => 0 <= x <= 100000000) monthly_incomes.
Proof.
  unfold read_monthly_incomes. intros H.
  destruct (get_integer strip py_int 6 24 (Some 12%Z) inputs)
    as [[n i1]|] eqn:E1; [| discriminate H].
  cbn [mbind option_bind] in H.
  apply read_incomes_spec in H as [Hl Hf]. split; [| exact Hf].
  apply get_integer_value in E1 as [E1 | E1].
  - injection E1 as <-. rewrite Hl. simpl. lia.
  - rewrite Hl. lia.
Qed.

End PromptProperties.

(** ** Pattern answers *)

Section PatternAnswerProperties.

Variable strip : string -> string.
Variable py_int : string -> option Z.
Variable py_float : string -> option Q.

Lemma get_float_in_bounds (min_val max_val : Q) (default : option Q)
    (inputs : list string) (v : Q) (rest : list string) :
  (forall d : Q, default = Some d -> min_val <= d <= max_val) ->
  get_float strip py_float min_val max_val default inputs = Some (v, rest) ->
  min_val <= v <= max_val.
Proof.
  intros Hd H. apply get_float_value in H as [H | H]; [now apply Hd | exact H].
Qed.

Lemma get_integer_in_bounds (min_val max_val : Z) (default : option Z)
    (inputs : list string) (v : Z) (rest : list string) :
  (forall d : Z, default = Some d -> (min_val <= d <= max_val)%Z) ->
  get_integer strip py_int min_val max_val default inputs = Some (v, rest) ->
  (min_val <= v <= max_val)%Z.
Proof.
  intros Hd H. apply get_integer_value in H as [H | H]; [now apply Hd | exact H].
Qed.

Ltac next_answer H E :=
  match type of H with
  | mbind _ ?e = Some _ =>
      destruct e as [[? ?]|] eqn:E;
      [cbn [mbind option_bind] in H | discriminate H]
  end.

Ltac default_ok :=
  let d := fresh "d" in
  let Hd := fresh "Hd" in
  intros d Hd; injection Hd as <-; first [lra | lia | assumption].

(** X7: when the prompts of [collect_pattern_data] return, every answer lies
    within the bounds of its prompt: rates between 1 and 500, percentages
    between 0 and 100, totals between 0 and 100000000, the longest gap between
    0 and 365 days and the average gap between 1 and 365. *)
Theorem read_pattern_answers_in_bounds (inputs : list string)
    (a : pattern_answers) (rest : list string) :
  read_pattern_answers strip py_int py_float inputs = Some (a, rest) ->
  answers_in_bounds a.
Proof.
  unfold read_pattern_answers. intros H.
  next_answer H E1. next_answer H E2. next_answer H E3. next_answer H E4.
  next_answer H E5. next_answer H E6. next_answer H E7. next_answer H E8.
  next_answer H E9. next_answer H E10. next_answer H E11. next_answer H E12.
  next_answer H E13. next_answer H E14. next_answer H E15. next_answer H E16.
  next_answer H E17. next_answer H E18. next_answer H E19. next_answer H E20.
  injection H as <- _.
  apply get_float_in_bounds in E1; [| default_ok].
  apply get_integer_in_bounds in E2; [| default_ok].
  apply get_float_in_bounds in E3; [| default_ok].
  apply get_float_in_bounds in E4; [| default_ok].
  apply get_float_in_bounds in E5; [| default_ok].
  apply get_float_in_bounds in E6; [| default_ok].
  apply get_float_in_bounds in E7; [| default_ok].
  apply get_float_in_bounds in E8; [| default_ok].
  apply get_float_in_bounds in E9; [| default_ok].
  apply get_integer_in_bounds in E10; [| default_ok].
  apply get_float_in_bounds in E11; [| default_ok].
  apply get_float_in_bounds in E12; [| default_ok].
  apply get_float_in_bounds in E13; [| default_ok].
  apply get_float_in_bounds in E14; [| default_ok].
  apply get_float_in_bounds in E15; [| default_ok].
  apply get_float_in_bounds in E16; [| default_ok].
  apply get_float_in_bounds in E17; [| intros ? [=]].
  apply get_float_in_bounds in E18; [| intros ? [=]].
  apply get_integer_in_bounds in E19; [| default_ok].
  apply get_float_in_bounds in E20; [| default_ok].
  unfold answers_in_bounds. simpl. tauto.
Qed.

End PatternAnswerProperties.

Lemma inject_Z_bounds (z lo hi : Z) :
  (lo <= z <= hi)%Z -> inject_Z lo <= inject_Z z <= inject_Z hi.
Proof. intros [H1 H2]. rewrite <- !Zle_Qle. now split. Qed.

Lemma Qdiv_bounds (x y lo hi : Q) :
  0 < y -> lo * y <= x -> x <= hi * y -> lo <= x / y <= hi.
Proof.
  intros Hy H1 H2. split.
  - now apply Qle_shift_div_l.
  - now apply Qle_shift_div_r.
Qed.

(** X8: for answers within the bounds of the prompts, the zero guards of
    [collect_pattern_data] never apply: the velocity change is
    [new_avg / old_avg] and lies between 0.002 and 500, the burst ratio is
    [max_tx / avg_tx_per_month] and lies between 0.002 and 500, and the gap
    irregularity is [|max_gap_days - avg_gap_days| / avg_gap_days] and lies
    between 0 and 364. *)
Theorem pattern_features_within_bounds (a : pattern_answers) :
  answers_in_bounds a ->
  velocity_change a == new_avg a / old_avg a
  /\ 0.002 <= velocity_change a <= 500
  /\ burst_ratio a == inject_Z (max_tx a) / avg_tx_per_month a
  /\ 0.002 <= burst_ratio a <= 500
  /\ gap_irregularity a
     == Qabs (inject_Z (max_gap_days a) - avg_gap_days a) / avg_gap_days a
  /\ 0 <= gap_irregularity a <= 364.
Proof.
  unfold answers_in_bounds.
  intros (Havg & Hmax & Hold & Hnew & _ & _ & _ & _ & _ & _ & _ & _ & _ & _
          & _ & _ & _ & _ & Hgap & Hag).
  apply inject_Z_bounds in Hmax, Hgap.
  change (inject_Z 1) with 1 in Hmax. change (inject_Z 500) with 500 in Hmax.
  change (inject_Z 0) with 0 in Hgap. change (inject_Z 365) with 365 in Hgap.
  assert (Hv : Qgtb (old_avg a) 0 = true) by (apply Qgtb_true; lra).
  assert (Hb : Qgtb (avg_tx_per_month a) 0 = true) by (apply Qgtb_true; lra).
  assert (Hg : Qgtb (avg_gap_days a) 0 = true) by (apply Qgtb_true; lra).
  unfold velocity_change, burst_ratio, gap_irregularity.
  rewrite Hv, Hb, Hg.
  split; [reflexivity |].
  split; [apply Qdiv_bounds; lra |].
  split; [reflexivity |].
  split; [apply Qdiv_bounds; lra |].
  split; [reflexivity |].
  apply Qdiv_bounds; [lra | |].
  - rewrite Qmult_0_l. apply Qabs_nonneg.
  - apply Qabs_case; intros; lra.
Qed.

(** ** More on the monthly income features *)

Lemma Qmax_cases (x y : Q) : Qmax x y = x \/ Qmax x y = y.
Proof.
  unfold Qmax, GenericMinMax.gmax. destruct (x ?= y); auto.
Qed.

Lemma Qmin_cases (x y : Q) : Qmin x y = x \/ Qmin x y = y.
Proof.
  unfold Qmin, GenericMinMax.gmin. destruct (x ?= y); auto.
Qed.

Lemma foldl_Qmax_upper (rest : list Q) :
  forall x : Q,
    x <= foldl Qmax x rest /\ Forall (fun y => y <= foldl Qmax x rest) rest.
Proof.
  induction rest as [|z rest IH]; intros x; simpl.
  - split; [apply Qle_refl | constructor].
  - destruct (IH (Qmax x z)) as [H1 H2].
    pose proof (Q.le_max_l x z). pose proof (Q.le_max_r x z).
    split; [lra |]. constructor; [lra | exact H2].
Qed.

Lemma foldl_Qmin_lower (rest : list Q) :
  forall x : Q,
    foldl Qmin x rest <= x /\ Forall (fun y => foldl Qmin x rest <= y) rest.
Proof.
  induction rest as [|z rest IH]; intros x; simpl.
  - split; [apply Qle_refl | constructor].
  - destruct (IH (Qmin x z)) as [H1 H2].
    pose proof (Q.le_min_l x z). pose proof (Q.le_min_r x z).
    split; [lra |]. constructor; [lra | exact H2].
Qed.

Lemma foldl_Qmin_elem (rest : list Q) :
  forall x : Q, foldl Qmin x rest ∈ x :: rest.
Proof.
  induction rest as [|z rest IH]; intros x; simpl; [left |].
  specialize (IH (Qmin x z)).
  apply elem_of_cons in IH as [-> | IH].
  - destruct (Qmin_cases x z) as [-> | ->]; [left | right; left].
  - right. now right.
Qed.

Lemma foldl_Qmax_elem (rest : list Q) :
  forall x : Q, foldl Qmax x rest ∈ x :: rest.
Proof.
  induction rest as [|z rest IH]; intros x; simpl; [left |].
  specialize (IH (Qmax x z)).
  apply elem_of_cons in IH as [-> | IH].
  - destruct (Qmax_cases x z) as [-> | ->]; [left | right; left].
  - right. now right.
Qed.

Lemma np_max_upper (a : list Q) (y : Q) : y ∈ a -> y <= np_max a.
Proof.
  destruct a as [|x rest]; [inversion 1 |].
  intros Hy. simpl. destruct (foldl_Qmax_upper rest x) as [H1 H2].
  apply elem_of_cons in Hy as [-> | Hy]; [exact H1 |].
  rewrite Forall_forall in H2. now apply H2.
Qed.

Lemma np_min_elem (a : list Q) : a <> [] -> np_min a ∈ a.
Proof.
  destruct a as [|x rest]; [congruence |]. intros _. apply foldl_Qmin_elem.
Qed.

Lemma np_max_elem (a : list Q) : a <> [] -> np_max a ∈ a.
Proof.
  destruct a as [|x rest]; [congruence |]. intros _. apply foldl_Qmax_elem.
Qed.

Lemma mom_changes_length (incomes : list Q) :
  length (mom_changes incomes) = pred (length incomes).
Proof.
  rewrite mom_changes_pairs.
  induction incomes as [|x incomes IH]; [reflexivity |].
  destruct incomes as [|y incomes]; [reflexivity |].
  simpl in *. now rewrite IH.
Qed.

(** X9: for a series of non-negative amounts every month-over-month change
    is above -1, whatever the amounts: a month cannot fall by 100 percent or
    more, because the fall is measured against the amount plus 1. *)
Theorem mom_changes_above_minus_one (incomes : list Q) :
  Forall (fun x => 0 <= x) incomes ->
  Forall (fun change => -1 < change) (mom_changes incomes).
Proof.
  rewrite mom_changes_pairs.
  induction 1 as [|x incomes Hx Hrest IH]; [constructor |].
  destruct Hrest as [|y incomes Hy Hrest]; [constructor |].
  simpl in *. constructor; [| exact IH].
  apply Qlt_shift_div_l; lra.
Qed.

(** X10: when no month-over-month change is a fall (every change is above
    0), [max_mom_decrease] is still positive: it is the absolute value of
    the smallest change, here the smallest rise. *)
Theorem max_decrease_without_a_fall (incomes : list Q) :
  (2 <= length incomes)%nat ->
  Forall (fun change => 0 < change) (mom_changes incomes) ->
  max_decrease incomes == np_min (mom_changes incomes)
  /\ 0 < max_decrease incomes.
Proof.
  intros Hlen Hall. unfold max_decrease.
  pose proof (mom_changes_length incomes) as Hl.
  assert (Hne : mom_changes incomes <> []).
  { intros He. rewrite He in Hl. simpl in Hl. lia. }
  assert (H1 : (1 <? length incomes)%nat = true) by (apply Nat.ltb_lt; lia).
  assert (H0 : (0 <? length (mom_changes incomes))%nat = true)
    by (apply Nat.ltb_lt; lia).
  rewrite H1, H0.
  pose proof (np_min_elem _ Hne) as Hin.
  rewrite Forall_forall in Hall. apply Hall in Hin.
  rewrite Qabs_pos by lra. split; [reflexivity | exact Hin].
Qed.

Lemma filter_length_le {A : Type} (p : A -> bool) (l : list A) :
  (length (List.filter p l) <= length l)%nat.
Proof.
  induction l as [|x l IH]; simpl; [lia |]. destruct (p x); simpl; lia.
Qed.

Lemma pct_high_deviation_count (incomes : list Q) :
  pct_high_deviation incomes
  == inject_Z (Z.of_nat (length (List.filter
       (fun x => Qgtb (Qabs (x - mean_income incomes)
                       / (mean_income incomes + 1)) 1) incomes)))
     / inject_Z (Z.of_nat (length incomes)).
Proof.
  unfold pct_high_deviation. cbv zeta. unfold np_mean.
  rewrite np_sum_of_bools. unfold of_bools. now rewrite !length_map.
Qed.

(** X11: [pct_high_deviation] is a fraction: for every non-empty series it
    lies between 0 and 1. *)
Theorem pct_high_deviation_is_a_fraction (incomes : list Q) :
  incomes <> [] ->
  0 <= pct_high_deviation incomes <= 1.
Proof.
  intros Hne. rewrite pct_high_deviation_count.
  pose proof (inject_length_pos incomes Hne) as Hpos.
  set (p := fun x => Qgtb _ 1).
  pose proof (filter_length_le p incomes) as Hle.
  assert (H0 : 0 <= inject_Z (Z.of_nat (length (List.filter p incomes)))).
  { change 0 with (inject_Z 0). rewrite <- Zle_Qle. lia. }
  assert (H1 : inject_Z (Z.of_nat (length (List.filter p incomes)))
               <= inject_Z (Z.of_nat (length incomes))).
  { rewrite <- Zle_Qle. lia. }
  apply Qdiv_bounds; [exact Hpos | lra | lra].
Qed.

Lemma np_sum_upper (l : list Q) (x : Q) :
  Forall (fun y => 0 <= y) l -> x ∈ l -> x <= np_sum l.
Proof.
  induction 1 as [|y l Hy Hl IH]; [inversion 1 |].
  intros Hx. rewrite np_sum_cons. pose proof (np_sum_nonneg l Hl).
  apply elem_of_cons in Hx as [-> | Hx]; [lra |].
  apply IH in Hx. lra.
Qed.

Lemma filter_nonempty_elem {A : Type} (p : A -> bool) (l : list A) :
  (0 < length (List.filter p l))%nat -> exists x, x ∈ l /\ p x = true.
Proof.
  induction l as [|y l IH]; simpl; [lia |].
  destruct (p y) eqn:Hp.
  - intros _. exists y. split; [left | exact Hp].
  - intros H. destruct (IH H) as (x & Hx & Hpx). exists x.
    split; [now right | exact Hpx].
Qed.

(** X12: for a series of non-negative amounts, a positive
    [pct_high_deviation] comes with a [max_deviation_from_mean] above 1: the
    two fields use different denominators, and a month counted by the first
    always deviates by more than the mean. *)
Theorem high_deviation_months_exceed_mean (incomes : list Q) :
  Forall (fun x => 0 <= x) incomes ->
  0 < pct_high_deviation incomes ->
  1 < max_deviation_from_mean incomes.
Proof.
  intros Hpos Hpct.
  pose proof (mean_income_nonneg incomes Hpos) as Hm.
  rewrite pct_high_deviation_count in Hpct.
  set (m := mean_income incomes) in *.
  set (p := fun x => Qgtb (Qabs (x - m) / (m + 1)) 1) in *.
  assert (Hcount : (0 < length (List.filter p incomes))%nat).
  { destruct (length (List.filter p incomes)) eqn:Hc; [| lia].
    exfalso. simpl in Hpct. rewrite Qdiv_0_l in Hpct. lra. }
  destruct (filter_nonempty_elem p incomes Hcount) as (x & Hx & Hpx).
  unfold p in Hpx. rewrite exceeds_one_iff in Hpx by lra.
  apply Qgtb_true in Hpx.
  assert (Hx0 : 0 <= x) by (rewrite Forall_forall in Hpos; now apply Hpos).
  unfold max_deviation_from_mean. cbv zeta. fold m.
  destruct (Qgtb m 0) eqn:Hg.
  - apply Qgtb_true in Hg.
    apply Qlt_le_trans with (Qabs (x - m) / m).
    + apply Qlt_shift_div_l; lra.
    + apply np_max_upper.
      apply (list_elem_of_fmap_2 (fun x => Qabs (x - m) / m)). exact Hx.
  - exfalso. apply Qgtb_false in Hg.
    assert (Hm0 : m == 0) by lra.
    pose proof (np_sum_upper incomes x Hpos Hx) as Hsum.
    assert (Hs0 : np_sum incomes == 0).
    { unfold m, mean_income, np_mean in Hm0.
      destruct incomes as [|y l]; [inversion Hx |].
      change (0 <? length (y :: l))%nat with true in Hm0. cbv iota in Hm0.
      pose proof (inject_length_pos (y :: l) ltac:(discriminate)) as Hn.
      assert (Heq : np_sum (y :: l)
                    == np_sum (y :: l) / inject_Z (Z.of_nat (length (y :: l)))
                       * inject_Z (Z.of_nat (length (y :: l))))
        by (field; lra).
      rewrite Heq, Hm0. ring. }
    assert (Hxz : x == 0) by lra.
    rewrite Hxz, Hm0 in Hpx. vm_compute in Hpx. discriminate Hpx.
Qed.

(** ** More on the rule bank *)

(** X13: the rules trigger at most eleven categories. *)
Theorem rule_output_at_most_eleven (income_data pattern_data : dict) :
  (length (rule_based_detection income_data pattern_data) <= 11)%nat.
Proof.
  change 11%nat with (length producible_labels).
  apply submseteq_length, NoDup_submseteq.
  - rewrite rule_based_detection_evaluate. apply NoDup_list_of_set.
  - intros x. apply rule_output_producible.
Qed.

Lemma elem_of_output (r : rule) (income_data pattern_data : dict) :
  r ∈ rule_bank -> fires r income_data pattern_data = true ->
  label r ∈ rule_based_detection income_data pattern_data.
Proof.
  intros Hr Hf. rewrite rule_based_detection_evaluate, elem_of_evaluate.
  now exists r.
Qed.

(** X14: a weekend share above 0.5 triggers two categories at once,
    'irregular_timing' and 'weekend_heavy', whatever the other fields are. *)
Theorem weekend_share_counts_twice (income_data pattern_data : dict) :
  0.5 < get pattern_data "weekend_pct" 0 ->
  "irregular_timing"%string ∈ rule_based_detection income_data pattern_data
  /\ "weekend_heavy"%string ∈ rule_based_detection income_data pattern_data.
Proof.
  intros Hw. split.
  - apply (elem_of_output
             (Rule (fun _ pattern_data =>
                      Qgtb (get pattern_data "night_hours_pct" 0) 0.3
                      || Qgtb (get pattern_data "weekend_pct" 0) 0.5)
                   "irregular_timing")).
    + unfold rule_bank. do 5 right. left.
    + simpl. apply orb_true_iff. right. now apply Qgtb_true.
  - apply (elem_of_output
             (Rule (fun _ pattern_data =>
                      Qgtb (get pattern_data "weekend_pct" 0) 0.4)
                   "weekend_heavy")).
    + unfold rule_bank. do 11 right. left.
    + simpl. apply Qgtb_true. lra.
Qed.

(** X15: dictionaries that lack the keys the rules read trigger nothing: each
    missing key reads as its default, and no default passes a threshold. *)
Theorem missing_keys_trigger_nothing (income_data pattern_data : dict) :
  (forall k : string, k ∈ income_keys -> income_data !! k = None) ->
  (forall k : string, k ∈ pattern_keys -> pattern_data !! k = None) ->
  rule_based_detection income_data pattern_data = [].
Proof.
  intros Hi Hp.
  assert (Hgi : forall k d, k ∈ income_keys -> get income_data k d = d)
    by (intros k d Hk; apply get_None; now apply Hi).
  assert (Hgp : forall k d, k ∈ pattern_keys -> get pattern_data k d = d)
    by (intros k d Hk; apply get_None; now apply Hp).
  unfold rule_based_detection.
  rewrite !Hgi by (unfold income_keys;
                   repeat first [apply list_elem_of_here
                                | apply list_elem_of_further]).
  rewrite !Hgp by (unfold pattern_keys;
                   repeat first [apply list_elem_of_here
                                | apply list_elem_of_further]).
  reflexivity.
Qed.

Lemma get_amount_change_ratio (np_log2 : Q -> Q) (a : pattern_answers) :
  get (collect_pattern_data np_log2 a) "amount_change_ratio" 1
  = amount_change_ratio a.
Proof.
  apply get_Some. unfold collect_pattern_data.
  repeat (rewrite lookup_insert_ne by discriminate). apply lookup_insert_eq.
Qed.

Lemma get_burst_ratio (np_log2 : Q -> Q) (a : pattern_answers) :
  get (collect_pattern_data np_log2 a) "burst_ratio" 1 = burst_ratio a.
Proof.
  apply get_Some. unfold collect_pattern_data.
  repeat (rewrite lookup_insert_ne by discriminate). apply lookup_insert_eq.
Qed.

Lemma get_velocity_change (np_log2 : Q -> Q) (a : pattern_answers) :
  get (collect_pattern_data np_log2 a) "velocity_change" 1 = velocity_change a.
Proof.
  apply get_Some. unfold collect_pattern_data.
  repeat (rewrite lookup_insert_ne by discriminate). apply lookup_insert_eq.
Qed.

Lemma dormant_burst_iff (income_data pattern_data : dict) :
  "dormant_burst"%string ∈ rule_based_detection income_data pattern_data <->
  fires burst_rule income_data pattern_data = true
  \/ fires gap_rule income_data pattern_data = true.
Proof.
  rewrite rule_based_detection_evaluate, elem_of_evaluate. split.
  - intros (r & Hr & Hf & Hl). unfold rule_bank in Hr.
    repeat (apply elem_of_cons in Hr as [-> | Hr]);
      try discriminate Hl; auto. inversion Hr.
  - intros [Hf | Hf].
    + exists burst_rule. split; [| easy]. unfold rule_bank. do 7 right. left.
    + exists gap_rule. split; [| easy]. unfold rule_bank. do 10 right. left.
Qed.

(** X16: when the first-half total is 0, the amount-change ratio is 1 and
    the long-gap rule cannot fire, however long the gap and however large the
    second-half total: 'dormant_burst' then depends on the burst ratio
    alone. *)
Theorem no_first_half_income_hides_dormancy (np_log2 : Q -> Q)
    (income_data : dict) (a : pattern_answers) :
  first_half_total a == 0 ->
  amount_change_ratio a = 1
  /\ fires gap_rule income_data (collect_pattern_data np_log2 a) = false
  /\ ("dormant_burst"%string ∈
        rule_based_detection income_data (collect_pattern_data np_log2 a)
      <-> 5 < burst_ratio a).
Proof.
  intros H0.
  assert (Hr : amount_change_ratio a = 1).
  { unfold amount_change_ratio.
    assert (Hg : Qgtb (first_half_total a) 0 = false)
      by (apply Qgtb_false; lra).
    now rewrite Hg. }
  assert (Hgap : fires gap_rule income_data (collect_pattern_data np_log2 a)
                 = false).
  { cbn [fires gap_rule]. rewrite get_amount_change_ratio, Hr.
    apply andb_false_iff. now right. }
  split; [exact Hr |]. split; [exact Hgap |].
  rewrite dormant_burst_iff, Hgap. cbn [fires burst_rule].
  rewrite get_burst_ratio, Qgtb_true. split; [intros [H | H] | now left].
  - exact H.
  - discriminate H.
Qed.

Lemma velocity_change_iff (income_data pattern_data : dict) :
  "velocity_change"%string ∈ rule_based_detection income_data pattern_data <->
  3 < get pattern_data "velocity_change" 1
  \/ get pattern_data "velocity_change" 1 < 0.3.
Proof.
  rewrite <- Qgtb_true, <- Qltb_true, <- orb_true_iff.
  rewrite rule_based_detection_evaluate, elem_of_evaluate. split.
  - intros (r & Hr & Hf & Hl). unfold rule_bank in Hr.
    repeat (apply elem_of_cons in Hr as [-> | Hr]);
      try discriminate Hl; try exact Hf. inversion Hr.
  - intros Hf.
    exists (Rule (fun _ pattern_data =>
                    Qgtb (get pattern_data "velocity_change" 1) 3
                    || Qltb (get pattern_data "velocity_change" 1) 0.3)
                 "velocity_change").
    split; [| split; [exact Hf | easy]].
    unfold rule_bank. do 6 right. left.
Qed.

Lemma producible_described (x : string) :
  x ∈ producible_labels -> is_Some (ANOMALY_DESCRIPTIONS !! x).
Proof.
  unfold producible_labels. intros H.
  repeat (apply elem_of_cons in H as [-> | H]; [vm_compute; eauto |]).
  inversion H.
Qed.

Lemma omap_length_all {A B : Type} (f : A -> option B) (l : list A) :
  (forall x, x ∈ l -> is_Some (f x)) -> length (omap f l) = length l.
Proof.
  induction l as [|x l IH]; intros H; [reflexivity |].
  simpl. destruct (H x ltac:(left)) as [y Hy]. rewrite Hy. simpl.
  f_equal. apply IH. intros z Hz. apply H. now right.
Qed.

(** X18: every category the rules trigger has a description: the report
    prints exactly one description line for each triggered category. *)
Theorem every_triggered_category_is_described
    (income_data pattern_data : dict) :
  length (description_lines (rule_based_detection income_data pattern_data))
  = length (rule_based_detection income_data pattern_data).
Proof.
  unfold description_lines. apply omap_length_all.
  intros x Hx%rule_output_producible%producible_described.
  destruct Hx as [d Hd]. rewrite Hd. now eexists.
Qed.

(** ** More on the risk assessment *)

(** X19: for a classifier score between 0 and 100 the risk score lies
    between that score and 100: the rules can only raise it. *)
Theorem risk_score_at_least_classifier_score (ml : ml_result)
    (C : list string) :
  0 <= anomaly_score ml <= 100 ->
  anomaly_score ml <= risk_score (display_results ml C) <= 100.
Proof.
  intros [H0 H100]. rewrite display_results_score.
  assert (Hl : 0 <= len C).
  { unfold len. change 0 with (inject_Z 0). rewrite <- Zle_Qle. lia. }
  split; [| apply Q.le_min_r].
  apply Q.min_glb; lra.
Qed.

Lemma risk_levels_differ :
  HIGH_RISK <> MEDIUM_RISK /\ HIGH_RISK <> LOW_RISK /\ MEDIUM_RISK <> LOW_RISK.
Proof. repeat split; discriminate. Qed.

Lemma risk_level_by_sum (ml : ml_result) (C : list string) :
  let total := anomaly_score ml + 10 * len C in
  (risk_level (display_results ml C) = HIGH_RISK <-> 70 <= total)
  /\ (risk_level (display_results ml C) = MEDIUM_RISK
      <-> 40 <= total /\ total < 70)
  /\ (risk_level (display_results ml C) = LOW_RISK <-> total < 40).
Proof.
  intros total.
  pose proof (display_results_score ml C) as Hs. fold total in Hs.
  destruct (display_results_level ml C) as (Hhi & Hmed & Hlo).
  destruct risk_levels_differ as (D1 & D2 & D3).
  set (r := display_results ml C) in *.
  assert (Hcases : 70 <= total \/ (40 <= total /\ total < 70) \/ total < 40).
  { destruct (Qlt_le_dec total 40); [now right; right |].
    destruct (Qlt_le_dec total 70); [right; left; now split | now left]. }
  assert (Hmin : (70 <= total -> 70 <= risk_score r)
                 /\ (total < 70 -> risk_score r == total)).
  { split; intros H; rewrite Hs.
    - apply Q.min_glb; lra.
    - apply Q.min_l. lra. }
  destruct Hmin as [Hm1 Hm2].
  destruct Hcases as [Hc | [[Hc1 Hc2] | Hc]].
  - assert (E : risk_level r = HIGH_RISK) by (apply Hhi; auto).
    rewrite E. repeat split; intros; try congruence; try lra.
  - assert (E : risk_level r = MEDIUM_RISK).
    { apply Hmed; rewrite (Hm2 Hc2); lra. }
    rewrite E. repeat split; intros; try congruence; try lra.
    all: exfalso; first [apply D1; congruence | apply D3; congruence].
  - assert (E : risk_level r = LOW_RISK).
    { apply Hlo. rewrite Hm2; lra. }
    rewrite E. repeat split; intros; try congruence; try lra.
    all: exfalso; first [apply D2; congruence | apply D3; congruence].
Qed.

Lemma ten_len (C : list string) :
  10 * len C == inject_Z (10 * Z.of_nat (length C)).
Proof. unfold len. now rewrite inject_Z_mult. Qed.

(** X20: without a classifier score the level is decided by the number of
    triggered categories alone: HIGH from seven categories, MEDIUM for four
    to six, LOW for at most three. *)
Theorem rule_only_levels (ml : ml_result) (C : list string) :
  anomaly_score ml == 0 ->
  (risk_level (display_results ml C) = HIGH_RISK <-> (7 <= length C)%nat)
  /\ (risk_level (display_results ml C) = MEDIUM_RISK
      <-> (4 <= length C <= 6)%nat)
  /\ (risk_level (display_results ml C) = LOW_RISK <-> (length C <= 3)%nat).
Proof.
  intros Hp.
  destruct (risk_level_by_sum ml C) as (Hhi & Hmed & Hlo). cbv zeta in *.
  rewrite Hhi, Hmed, Hlo, Hp, Qplus_0_l, ten_len.
  change 70 with (inject_Z 70). change 40 with (inject_Z 40).
  rewrite <- !Zle_Qle, <- !Zlt_Qlt. lia.
Qed.

Lemma high_volatility_iff (income_data pattern_data : dict) :
  "high_volatility"%string ∈ rule_based_detection income_data pattern_data <->
  0.5 < get income_data "income_cv" 0.
Proof.
  rewrite <- Qgtb_true, rule_based_detection_evaluate, elem_of_evaluate. split.
  - intros (r & Hr & Hf & Hl). unfold rule_bank in Hr.
    repeat (apply elem_of_cons in Hr as [-> | Hr]);
      try discriminate Hl; try exact Hf. inversion Hr.
  - intros Hf.
    exists (Rule (fun income_data _ => Qgtb (get income_data "income_cv" 0) 0.5)
                 "high_volatility").
    split; [| split; [exact Hf | easy]]. unfold rule_bank. left.
Qed.

(** X21: the summary line for the income CV is stricter than the rule: the
    line reads "High volatility" from a CV of 0.4, the rule 'high_volatility'
    fires only above 0.5.  So the rule firing implies the red line, and for a
    CV from 0.4 to 0.5 the line is red while the rule is silent. *)
Theorem cv_line_and_volatility_rule (income_data pattern_data : dict) :
  ("high_volatility"%string ∈ rule_based_detection income_data pattern_data ->
   cv_band income_data = "     (🔴 High volatility - unusual)"%string)
  /\ (0.4 <= get income_data "income_cv" 0 <= 0.5 ->
      cv_band income_data = "     (🔴 High volatility - unusual)"%string
      /\ "high_volatility"%string ∉
           rule_based_detection income_data pattern_data).
Proof.
  assert (Hred : 0.4 <= get income_data "income_cv" 0 ->
                 cv_band income_data
                 = "     (🔴 High volatility - unusual)"%string).
  { intros H. unfold cv_band. cbv zeta.
    assert (H1 : Qltb (get income_data "income_cv" 0) 0.2 = false)
      by (apply Qgtb_false; lra).
    assert (H2 : Qltb (get income_data "income_cv" 0) 0.4 = false)
      by (apply Qgtb_false; lra).
    now rewrite H1, H2. }
  split.
  - rewrite high_volatility_iff. intros H. apply Hred. lra.
  - intros [H1 H2]. split; [now apply Hred |].
    rewrite high_volatility_iff. lra.
Qed.

Lemma said_if_absent (C : list string) (anomaly line : string) :
  anomaly ∉ C -> said_if C anomaly line = [].
Proof.
  intros H. unfold said_if. now rewrite bool_decide_eq_false_2.
Qed.

(** X22: the section PATTERN EXPLANATION is printed as soon as a rule
    triggered, but it has a line for seven categories only: when every
    triggered category is among 'round_amounts', 'dormant_burst',
    'pattern_break' and 'weekend_heavy', the section is printed empty. *)
Theorem explanation_can_be_empty (ml : ml_result) (C : list string) :
  C <> [] ->
  (forall x : string, x ∈ C -> x ∉ explained_labels) ->
  pattern_explanation ml C = Some [].
Proof.
  intros Hne Hun. unfold pattern_explanation.
  rewrite (bool_decide_eq_false_2 (C = []) Hne), orb_true_r.
  assert (Habs : forall x, x ∈ explained_labels -> x ∉ C).
  { intros x Hx Hc. now apply (Hun x Hc). }
  rewrite !said_if_absent
    by (apply Habs; unfold explained_labels;
        repeat first [apply list_elem_of_here | apply list_elem_of_further]).
  reflexivity.
Qed.

(** ** The classifier's answer *)

Lemma round_half_even_bounds (x : Q) (lo hi : Z) :
  inject_Z lo <= x <= inject_Z hi ->
  (lo <= round_half_even x <= hi)%Z.
Proof.
  intros [Hlo Hhi]. unfold round_half_even. cbv zeta.
  pose proof (Qfloor_le x) as Hf.
  assert (Hflo : (lo <= Qfloor x)%Z).
  { rewrite <- (Qfloor_Z lo). now apply Qfloor_resp_le. }
  assert (Hfhi : (Qfloor x <= hi)%Z).
  { rewrite <- (Qfloor_Z hi). now apply Qfloor_resp_le. }
  assert (Hup : inject_Z (Qfloor x) < x -> (Qfloor x + 1 <= hi)%Z).
  { intros Hlt. assert (Hz : (Qfloor x < hi)%Z) by (rewrite Zlt_Qlt; lra). lia. }
  destruct (Qcompare (x - inject_Z (Qfloor x)) (1 # 2)) eqn:Hc.
  - apply Qeq_alt in Hc. destruct (Z.even (Qfloor x)); [lia |].
    split; [lia | apply Hup; lra].
  - lia.
  - apply Qgt_alt in Hc. split; [lia | apply Hup; lra].
Qed.

Lemma round2_bounds (x : Q) (lo hi : Z) :
  inject_Z lo <= x <= inject_Z hi ->
  inject_Z lo <= round2 x <= inject_Z hi.
Proof.
  intros [Hlo Hhi]. unfold round2.
  assert (Hb : (lo * 100 <= round_half_even (x * 100) <= hi * 100)%Z).
  { apply round_half_even_bounds. rewrite !inject_Z_mult.
    change (inject_Z 100) with 100. lra. }
  destruct Hb as [H1 H2].
  rewrite Zle_Qle, inject_Z_mult in H1. rewrite Zle_Qle, inject_Z_mult in H2.
  change (inject_Z 100) with 100 in H1, H2.
  apply Qdiv_bounds; lra.
Qed.

(** X23: with a model that gives probabilities, for a probability between 0
    and 1 the anomaly score lies between 0 and 100 and the confidence between
    50 and 100. *)
Theorem detect_result_ranges (prediction : Z) (probability_1 : Q) :
  0 <= probability_1 <= 1 ->
  let ml := detect_result true prediction probability_1 in
  0 <= anomaly_score ml <= 100
  /\ 50 <= confidence ml <= 100
  /\ is_anomaly ml = (prediction =? 1)%Z.
Proof.
  intros [H0 H1] ml. unfold ml, detect_result. cbv zeta.
  cbn [anomaly_score confidence is_anomaly].
  split; [| split; [| reflexivity]].
  - apply (round2_bounds _ 0 100). change (inject_Z 0) with 0.
    change (inject_Z 100) with 100. lra.
  - apply (round2_bounds _ 50 100). change (inject_Z 50) with 50.
    change (inject_Z 100) with 100.
    split.
    + destruct (Qlt_le_dec (probability_1 * 100) 50).
      * apply Qle_trans with (100 - probability_1 * 100); [lra |].
        apply Q.le_max_r.
      * apply Qle_trans with (probability_1 * 100); [lra |].
        apply Q.le_max_l.
    + apply Q.max_lub; lra.
Qed.

(** X24: with an Isolation Forest, which gives no probability, the answer
    takes two values only: a prediction of -1 is an anomaly with score 50 and
    confidence 50, every other prediction is no anomaly with score 10 and
    confidence 90.  With no rule triggered the first is MEDIUM risk and the
    second LOW. *)
Theorem isolation_forest_answers (prediction : Z) (probability_1 : Q) :
  let ml := detect_result false prediction probability_1 in
  (prediction = (-1)%Z ->
   is_anomaly ml = true /\ anomaly_score ml == 50 /\ confidence ml == 50
   /\ risk_level (display_results ml []) = MEDIUM_RISK)
  /\ (prediction <> (-1)%Z ->
      is_anomaly ml = false /\ anomaly_score ml == 10 /\ confidence ml == 90
      /\ risk_level (display_results ml []) = LOW_RISK).
Proof.
  intros ml. unfold ml, detect_result. split.
  - intros ->. repeat split; vm_compute; reflexivity.
  - intros Hne. apply Z.eqb_neq in Hne. rewrite Hne.
    repeat split; vm_compute; reflexivity.
Qed.

(** ** A constant series *)

Lemma np_sum_all_zero (l : list Q) :
  Forall (fun x => x == 0) l -> np_sum l == 0.
Proof.
  induction 1 as [|x l Hx _ IH]; [reflexivity |].
  rewrite np_sum_cons, Hx, IH. reflexivity.
Qed.

Lemma np_mean_all_zero (l : list Q) :
  Forall (fun x => x == 0) l -> np_mean l == 0.
Proof.
  intros H. unfold np_mean. rewrite (np_sum_all_zero l H). apply Qdiv_0_l.
Qed.

Lemma np_max_all_zero (l : list Q) :
  l <> [] -> Forall (fun x => x == 0) l -> np_max l == 0.
Proof.
  intros Hne Hall. rewrite Forall_forall in Hall.
  apply Hall. now apply np_max_elem.
Qed.

Lemma np_min_all_zero (l : list Q) :
  l <> [] -> Forall (fun x => x == 0) l -> np_min l == 0.
Proof.
  intros Hne Hall. rewrite Forall_forall in Hall.
  apply Hall. now apply np_min_elem.
Qed.

Lemma np_sum_repeat (c : Q) (n : nat) :
  np_sum (repeat c n) == inject_Z (Z.of_nat n) * c.
Proof.
  induction n as [|n IH]; [simpl; unfold np_sum; simpl; ring |].
  simpl repeat. rewrite np_sum_cons, IH, inject_succ. ring.
Qed.

Lemma mean_income_repeat (c : Q) (n : nat) :
  (1 <= n)%nat -> mean_income (repeat c n) == c.
Proof.
  intros Hn. unfold mean_income, np_mean. rewrite repeat_length.
  assert (H0 : (0 <? n)%nat = true) by (apply Nat.ltb_lt; lia).
  rewrite H0, np_sum_repeat.
  assert (Hpos : 0 < inject_Z (Z.of_nat n)).
  { change 0 with (inject_Z 0). rewrite <- Zlt_Qlt. lia. }
  field. lra.
Qed.

Lemma mom_changes_repeat (c : Q) (n : nat) :
  Forall (fun change => change == 0) (mom_changes (repeat c n)).
Proof.
  rewrite mom_changes_pairs.
  induction n as [|n IH]; [constructor |].
  destruct n as [|n]; [constructor |].
  simpl in *. constructor; [| exact IH].
  assert (c - c == 0) as -> by ring. apply Qdiv_0_l.
Qed.

Lemma Forall_map_repeat (f : Q -> Q) (c : Q) (n : nat) :
  f c == 0 -> Forall (fun x => x == 0) (map f (repeat c n)).
Proof.
  intros Hf. rewrite map_repeat.
  induction n as [|n IH]; simpl; constructor; [exact Hf | exact IH].
Qed.

Lemma get_income_cv (np_sqrt : Q -> Q) (monthly_incomes : list Q) :
  get (collect_monthly_income np_sqrt monthly_incomes) "income_cv" 0
  = income_cv np_sqrt monthly_incomes.
Proof.
  apply get_Some. unfold collect_monthly_income. cbv zeta.
  apply lookup_insert_eq.
Qed.

Lemma get_max_deviation (np_sqrt : Q -> Q) (monthly_incomes : list Q) :
  get (collect_monthly_income np_sqrt monthly_incomes)
      "max_deviation_from_mean" 0
  = max_deviation_from_mean monthly_incomes.
Proof.
  apply get_Some. unfold collect_monthly_income. cbv zeta.
  repeat (rewrite lookup_insert_ne by discriminate). apply lookup_insert_eq.
Qed.

Lemma pattern_break_iff (income_data pattern_data : dict) :
  "pattern_break"%string ∈ rule_based_detection income_data pattern_data <->
  2 < get income_data "max_deviation_from_mean" 0.
Proof.
  rewrite <- Qgtb_true, rule_based_detection_evaluate, elem_of_evaluate. split.
  - intros (r & Hr & Hf & Hl). unfold rule_bank in Hr.
    repeat (apply elem_of_cons in Hr as [-> | Hr]);
      try discriminate Hl; try exact Hf. inversion Hr.
  - intros Hf.
    exists (Rule (fun income_data _ =>
                    Qgtb (get income_data "max_deviation_from_mean" 0) 2)
                 "pattern_break").
    split; [| split; [exact Hf | easy]]. unfold rule_bank. do 2 right. left.
Qed.

(** X25: a series that repeats one non-negative amount has every
    month-over-month field and [pct_high_deviation] at 0, and, the square
    root of 0 being 0, none of the three income rules ('high_volatility',
    'sudden_spike', 'pattern_break') fires on it. *)
Theorem constant_series_is_quiet (np_sqrt : Q -> Q) (c : Q) (n : nat)
    (pattern_data : dict) :
  0 <= c -> (2 <= n)%nat ->
  (forall q : Q, q == 0 -> np_sqrt q == 0) ->
  let incomes := repeat c n in
  let income_data := collect_monthly_income np_sqrt incomes in
  (max_increase incomes == 0 /\ max_decrease incomes == 0
   /\ avg_change incomes == 0)
  /\ pct_high_deviation incomes == 0
  /\ ("high_volatility"%string ∉ rule_based_detection income_data pattern_data)
  /\ ("sudden_spike"%string ∉ rule_based_detection income_data pattern_data)
  /\ ("pattern_break"%string ∉ rule_based_detection income_data pattern_data).
Proof.
  intros Hc Hn Hsqrt incomes income_data.
  pose proof (mean_income_repeat c n ltac:(lia)) as Hm. fold incomes in Hm.
  pose proof (mom_changes_repeat c n) as Hch. fold incomes in Hch.
  assert (Hlen : length incomes = n) by apply repeat_length.
  pose proof (mom_changes_length incomes) as Hcl. rewrite Hlen in Hcl.
  assert (Hne : mom_changes incomes <> []).
  { intros He. rewrite He in Hcl. simpl in Hcl. lia. }
  assert (H1 : (1 <? length incomes)%nat = true)
    by (apply Nat.ltb_lt; lia).
  assert (H0 : (0 <? length (mom_changes incomes))%nat = true)
    by (apply Nat.ltb_lt; lia).
  assert (Hinc : max_increase incomes == 0).
  { unfold max_increase. rewrite H1, H0. now apply np_max_all_zero. }
  assert (Hdec : max_decrease incomes == 0).
  { unfold max_decrease. rewrite H1, H0.
    rewrite (np_min_all_zero _ Hne Hch). reflexivity. }
  assert (Havg : avg_change incomes == 0).
  { unfold avg_change. rewrite H1, H0. apply np_mean_all_zero.
    unfold np_abs. rewrite Forall_forall in Hch |- *.
    intros x (y & -> & Hy)%list_elem_of_fmap. rewrite (Hch y Hy). reflexivity. }
  assert (Hdev : max_deviation_from_mean incomes == 0).
  { unfold max_deviation_from_mean. cbv zeta.
    destruct (Qgtb (mean_income incomes) 0); [| reflexivity].
    apply np_max_all_zero.
    - unfold incomes. destruct n; [lia | discriminate].
    - apply Forall_map_repeat.
      rewrite (Qabs_self_minus c (mean_income incomes) Hm). apply Qdiv_0_l. }
  assert (Hpct : pct_high_deviation incomes == 0).
  { unfold pct_high_deviation. cbv zeta. apply np_mean_all_zero.
    unfold incomes at 3. rewrite map_repeat. unfold of_bools. rewrite map_repeat.
    assert (Hb : Qgtb (Qabs (c - mean_income incomes)
                       / (mean_income incomes + 1)) 1 = false).
    { apply Qgtb_false.
      rewrite (Qabs_self_minus c (mean_income incomes) Hm), Qdiv_0_l. lra. }
    rewrite Hb. clear. induction n; simpl; constructor; [reflexivity | assumption]. }
  assert (Hcv : income_cv np_sqrt incomes == 0).
  { unfold income_cv. destruct (Qgtb (mean_income incomes) 0); [| reflexivity].
    unfold std_income. rewrite H1. unfold np_std. cbv zeta.
    rewrite Hsqrt; [apply Qdiv_0_l |].
    apply np_mean_all_zero. apply Forall_map_repeat.
    assert (Hmm : np_mean incomes == c).
    { unfold mean_income in Hm.
      assert (Hp : (0 <? length incomes)%nat = true)
        by (apply Nat.ltb_lt; lia).
      now rewrite Hp in Hm. }
    rewrite (Qabs_self_minus c (np_mean incomes) Hmm). ring. }
  split; [auto |]. split; [exact Hpct |].
  unfold income_data.
  rewrite high_volatility_iff, sudden_spike_iff, pattern_break_iff.
  rewrite get_income_cv, get_max_mom_increase, get_max_deviation.
  rewrite Hcv, Hinc, Hdev. repeat split; lra.
Qed.

(** ** Accepting the defaults *)

Lemma pattern_data_reads (np_log2 : Q -> Q) (a : pattern_answers) :
  let p := collect_pattern_data np_log2 a in
  get p "near_50k_pct" 0 = near_50k a / 100
  /\ get p "near_200k_pct" 0 = near_200k a / 100
  /\ get p "round_amount_pct" 0 = round_amount a / 100
  /\ get p "night_hours_pct" 0 = night_hours a / 100
  /\ get p "weekend_pct" 0 = weekend a / 100
  /\ get p "velocity_change" 1 = velocity_change a
  /\ get p "burst_ratio" 1 = burst_ratio a
  /\ get p "new_source_rate" 0 = new_source a / 100
  /\ get p "unverified_rate" 0 = unverified a / 100
  /\ get p "max_gap_days" 0 = inject_Z (max_gap_days a)
  /\ get p "amount_change_ratio" 1 = amount_change_ratio a.
Proof.
  intros p. unfold p, collect_pattern_data.
  repeat split; apply get_Some;
    repeat (rewrite lookup_insert_ne by discriminate); apply lookup_insert_eq.
Qed.

Section DefaultAnswers.

Variable strip : string -> string.
Variable py_int : string -> option Z.
Variable py_float : string -> option Q.

Lemma get_float_blank (min_val max_val d : Q) (line : string)
    (rest : list string) :
  strip line = ""%string ->
  get_float strip py_float min_val max_val (Some d) (line :: rest)
  = Some (d, rest).
Proof. intros H. simpl. now rewrite H. Qed.

Lemma get_integer_blank (min_val max_val d : Z) (line : string)
    (rest : list string) :
  strip line = ""%string ->
  get_integer strip py_int min_val max_val (Some d) (line :: rest)
  = Some (d, rest).
Proof. intros H. simpl. now rewrite H. Qed.

Lemma get_float_typed (min_val max_val v : Q) (line : string)
    (rest : list string) :
  py_float (strip line) = Some v -> min_val <= v <= max_val ->
  get_float strip py_float min_val max_val None (line :: rest)
  = Some (v, rest).
Proof.
  intros Hv [H1 H2]. simpl. rewrite Hv.
  apply Qle_bool_iff in H1, H2. now rewrite H1, H2.
Qed.

(** An accepted answer hands its value and the lines left to the rest of the
    collector. *)
Lemma step_blank_float {B : Type} (min_val max_val d : Q) (line : string)
    (rest : list string) (k : Q * list string -> option B) :
  strip line = ""%string ->
  get_float strip py_float min_val max_val (Some d) (line :: rest) ≫= k
  = k (d, rest).
Proof. intros H. now rewrite get_float_blank. Qed.

Lemma step_blank_integer {B : Type} (min_val max_val d : Z) (line : string)
    (rest : list string) (k : Z * list string -> option B) :
  strip line = ""%string ->
  get_integer strip py_int min_val max_val (Some d) (line :: rest) ≫= k
  = k (d, rest).
Proof. intros H. now rewrite get_integer_blank. Qed.

Lemma step_typed_float {B : Type} (min_val max_val v : Q) (line : string)
    (rest : list string) (k : Q * list string -> option B) :
  py_float (strip line) = Some v -> min_val <= v <= max_val ->
  get_float strip py_float min_val max_val None (line :: rest) ≫= k
  = k (v, rest).
Proof.
  intros H1 H2. now rewrite (get_float_typed _ _ v line rest H1 H2).
Qed.


(** X26: a user who leaves every prompt of [collect_pattern_data] blank and
    types only the two half-period totals gets the default answers, and these
    trigger no pattern rule, whatever the totals: only the three income rules
    can still fire. *)
Theorem accepting_defaults_is_quiet (np_log2 : Q -> Q)
    (first_line second_line : string) (first second : Q)
    (rest : list string) (income_data : dict) :
  strip "" = ""%string ->
  py_float (strip first_line) = Some first -> 0 <= first <= 100000000 ->
  py_float (strip second_line) = Some second -> 0 <= second <= 100000000 ->
  read_pattern_answers strip py_int py_float
    (replicate 16 ""%string ++ [first_line; second_line]
     ++ replicate 2 ""%string ++ rest)
  = Some (default_answers first second, rest)
  /\ forall x : string,
       x ∈ rule_based_detection income_data
             (collect_pattern_data np_log2 (default_answers first second)) ->
       x ∈ income_labels.
Proof.
  intros Hs Hf Hfr Hg Hgr. split.
  - unfold read_pattern_answers.
    change (replicate 16 ""%string ++ [first_line; second_line]
            ++ replicate 2 ""%string ++ rest)
      with (""%string :: replicate 15 ""%string ++ [first_line; second_line]
            ++ replicate 2 ""%string ++ rest).
    rewrite step_blank_float by exact Hs.
    repeat first
      [ rewrite step_blank_float by exact Hs
      | rewrite step_blank_integer by exact Hs
      | rewrite (step_typed_float _ _ first first_line) by assumption
      | rewrite (step_typed_float _ _ second second_line) by assumption
      | progress cbn [replicate app] ].
    reflexivity.
  - intros x. rewrite rule_based_detection_evaluate, elem_of_evaluate.
    intros (r & Hr & Hfire & <-).
    destruct (pattern_data_reads np_log2 (default_answers first second))
      as (R1 & R2 & R3 & R4 & R5 & R6 & R7 & R8 & R9 & R10 & R11).
    unfold rule_bank in Hr.
    repeat (apply elem_of_cons in Hr as [-> | Hr]);
      [ left | right; left | do 2 right; left | exfalso | exfalso | exfalso
      | exfalso | exfalso | exfalso | exfalso | exfalso | exfalso
      | inversion Hr ];
      cbn [fires structuring_rule burst_rule gap_rule] in Hfire;
      rewrite ?R1, ?R2, ?R3, ?R4, ?R5, ?R6, ?R7, ?R8, ?R9, ?R10, ?R11
        in Hfire;
      cbn [default_answers near_50k near_200k round_amount night_hours weekend
           new_source unverified max_gap_days] in Hfire;
      vm_compute in Hfire; discriminate Hfire.
Qed.

End DefaultAnswers.

(** ** The feature vector *)

Lemma lookup_income_dict_None (np_sqrt : Q -> Q) (incomes : list Q)
    (k : string) :
  k ∉ [ "monthly_incomes"; "income_cv"; "max_mom_increase";
        "max_mom_decrease"; "avg_mom_change"; "max_deviation_from_mean";
        "pct_high_deviation" ]%string ->
  income_dict np_sqrt incomes !! k = None.
Proof.
  intros Hk. unfold income_dict, collect_monthly_income. cbv zeta.
  rewrite lookup_insert_ne by (intros <-; apply Hk; left).
  rewrite lookup_fmap.
  repeat (rewrite lookup_insert_ne
            by (intros <-; apply Hk;
                repeat first [apply list_elem_of_here
                             | apply list_elem_of_further])).
  reflexivity.
Qed.

Lemma lookup_pattern_dict_None (np_log2 : Q -> Q) (a : pattern_answers)
    (k : string) :
  k ∉ [ "avg_tx_per_month"; "freq_cv"; "velocity_change"; "burst_ratio";
        "weekend_pct"; "night_hours_pct"; "round_amount_pct"; "near_50k_pct";
        "near_200k_pct"; "num_unique_sources"; "source_concentration";
        "new_source_rate"; "unverified_rate"; "cash_deposit_rate";
        "mode_entropy"; "amount_change_ratio"; "max_gap_days";
        "avg_gap_days"; "gap_irregularity" ]%string ->
  pattern_dict np_log2 a !! k = None.
Proof.
  intros Hk. unfold pattern_dict, collect_pattern_data.
  rewrite lookup_fmap.
  repeat (rewrite lookup_insert_ne
            by (intros <-; apply Hk;
                repeat first [apply list_elem_of_here
                             | apply list_elem_of_further])).
  reflexivity.
Qed.

Lemma lookup_worker_dict_None (w : worker_data) (k : string) :
  k ∉ [ "sector"; "is_formal"; "income_tier"; "account_age_months" ]%string ->
  worker_dict w !! k = None.
Proof.
  intros Hk. unfold worker_dict.
  repeat (rewrite lookup_insert_ne
            by (intros <-; apply Hk;
                repeat first [apply list_elem_of_here
                             | apply list_elem_of_further])).
  reflexivity.
Qed.

Lemma lookup_encode_ne (label_encoders : gmap string (pyval -> option Z))
    (col k : string) (data : gmap string pyval) :
  k <> String.append col "_encoded" ->
  encode label_encoders col data !! k = data !! k.
Proof.
  intros Hk. unfold encode.
  destruct (label_encoders !! col); [| reflexivity].
  destruct (data !! col); [| reflexivity].
  now rewrite lookup_insert_ne.
Qed.

Ltac not_listed :=
  let H := fresh in
  intros H;
  repeat (apply elem_of_cons in H as [H | H]; [discriminate H |]);
  inversion H.

(** X27: the vector has one entry for each feature name, and a name that no
    collector produces gets 0 without any error.  The training list names
    two such features, 'amount_range_ratio' and 'very_high_pct': the model
    always sees them as 0. *)
Theorem uncollected_features_are_zero (np_sqrt np_log2 : Q -> Q)
    (label_encoders : gmap string (pyval -> option Z))
    (feature_names : list string)
    (w : worker_data) (a : pattern_answers) (incomes : list Q) :
  let vector :=
    feature_vector label_encoders feature_names (worker_dict w)
      (pattern_dict np_log2 a) (income_dict np_sqrt incomes) in
  length vector = length feature_names
  /\ "amount_range_ratio"%string ∈ pattern_features
  /\ "very_high_pct"%string ∈ pattern_features
  /\ forall i : nat,
       feature_names !! i = Some "amount_range_ratio"%string
       \/ feature_names !! i = Some "very_high_pct"%string ->
       vector !! i = Some (Num 0).
Proof.
  intros vector. unfold vector, feature_vector. cbv zeta.
  split; [apply length_map |].
  split; [unfold pattern_features; do 7 right; left |].
  split; [unfold pattern_features; do 10 right; left |].
  intros i Hi. rewrite list_lookup_fmap.
  destruct Hi as [-> | ->]; simpl; f_equal.
  - rewrite !lookup_encode_ne by discriminate.
    rewrite !lookup_union, lookup_income_dict_None, lookup_pattern_dict_None,
      lookup_worker_dict_None by not_listed.
    reflexivity.
  - rewrite !lookup_encode_ne by discriminate.
    rewrite !lookup_union, lookup_income_dict_None, lookup_pattern_dict_None,
      lookup_worker_dict_None by not_listed.
    reflexivity.
Qed.

Lemma lookup_sector (np_sqrt np_log2 : Q -> Q) (w : worker_data)
    (a : pattern_answers) (incomes : list Q) :
  (income_dict np_sqrt incomes ∪ pattern_dict np_log2 a ∪ worker_dict w)
    !! "sector"%string = Some (Str (sector w)).
Proof.
  rewrite !lookup_union, lookup_income_dict_None, lookup_pattern_dict_None
    by not_listed.
  unfold worker_dict. now rewrite lookup_insert_eq.
Qed.

(** X28: the feature 'sector_encoded' is the encoder's code of the worker's
    sector; it is 0 when the encoder raises on a sector it has not seen, and
    0 again when no encoder for 'sector' was loaded, so both cases look like
    the sector of code 0. *)
Theorem sector_encoded_feature (np_sqrt np_log2 : Q -> Q)
    (label_encoders : gmap string (pyval -> option Z))
    (w : worker_data) (a : pattern_answers) (incomes : list Q) :
  let vector :=
    feature_vector label_encoders [ "sector_encoded"%string ] (worker_dict w)
      (pattern_dict np_log2 a) (income_dict np_sqrt incomes) in
  (forall (encoder : pyval -> option Z) (code : Z),
     label_encoders !! "sector"%string = Some encoder ->
     encoder (Str (sector w)) = Some code ->
     vector = [ Num (inject_Z code) ])
  /\ (forall encoder : pyval -> option Z,
        label_encoders !! "sector"%string = Some encoder ->
        encoder (Str (sector w)) = None ->
        vector = [ Num 0 ])
  /\ (label_encoders !! "sector"%string = None -> vector = [ Num 0 ]).
Proof.
  intros vector. unfold vector, feature_vector. cbv zeta. simpl map.
  rewrite lookup_encode_ne by discriminate.
  unfold encode. rewrite lookup_sector.
  split; [| split].
  - intros encoder code -> Hc. rewrite Hc, lookup_insert_eq. reflexivity.
  - intros encoder -> Hc. rewrite Hc, lookup_insert_eq. reflexivity.
  - intros ->.
    rewrite !lookup_union, lookup_income_dict_None, lookup_pattern_dict_None,
      lookup_worker_dict_None by not_listed.
    reflexivity.
Qed.

(** ** Instances of the further properties *)

Lemma get_integer_within_bounds_witness :
  (Some 12%Z = Some 8%Z \/ (6 <= 8 <= 24)%Z)
  /\ ((forall d : Z, Some 12%Z = Some d -> (6 <= d <= 24)%Z) ->
      (6 <= 8 <= 24)%Z).
Proof.
  apply (get_integer_within_bounds as_typed sample_int 6 24 (Some 12%Z)
           [ "abc"; "99"; "8" ]%string 8 []).
  reflexivity.
Defined.

Lemma get_integer_asks_again_witness :
  get_integer as_typed sample_int 6 24 (Some 12%Z)
    ([ "abc"; "99" ]%string ++ [ "8"%string ])
  = get_integer as_typed sample_int 6 24 (Some 12%Z) [ "8"%string ]
  /\ get_integer as_typed sample_int 6 24 (Some 12%Z) [ "abc"; "99" ]%string
     = None.
Proof.
  apply (get_integer_asks_again as_typed sample_int 6 24 (Some 12%Z)
           [ "abc"; "99" ]%string [ "8"%string ]).
  constructor; [split; [right; discriminate | exact I] |].
  constructor; [split; [right; discriminate | simpl; lia] |].
  constructor.
Defined.

Lemma get_float_within_bounds_or_again_witness :
  get_float as_typed sample_float 0 100000000 None
    ([ "abc"; "-5" ]%string ++ [ "12000"%string ])
  = get_float as_typed sample_float 0 100000000 None [ "12000"%string ]
  /\ get_float as_typed sample_float 0 100000000 None [ "abc"; "-5" ]%string
     = None
  /\ forall (v : Q) (rest : list string),
       get_float as_typed sample_float 0 100000000 None [ "12000"%string ]
       = Some (v, rest) ->
       None = Some v \/ 0 <= v <= 100000000.
Proof.
  apply (get_float_within_bounds_or_again as_typed sample_float 0 100000000
           None [ "abc"; "-5" ]%string [ "12000"%string ]).
  constructor; [split; [now left | exact I] |].
  constructor; [split; [now left | simpl; lra] |].
  constructor.
Defined.

Lemma get_choice_returns_an_option_witness :
  exists opt : string,
    [ "low"; "medium"; "high" ]%string !! Z.to_nat (2 - 1) = Some opt
    /\ get_choice as_typed sample_int [ "low"; "medium"; "high" ]%string
         ([ "abc"; "99" ]%string ++ "2"%string :: [])
       = Some (opt, []).
Proof.
  destruct (get_choice_returns_an_option as_typed sample_int
              [ "low"; "medium"; "high" ]%string []) as (_ & _ & H).
  apply (H [ "abc"; "99" ]%string "2"%string 2%Z).
  - constructor; [exact I |].
    constructor; [unfold rejected_choice; simpl; lia |].
    constructor.
  - reflexivity.
  - simpl. lia.
Defined.

Lemma collect_worker_data_fields_witness :
  "construction"%string ∈ JOB_SECTORS
  /\ (1 = 0 \/ 1 = 1)%Z
  /\ "low"%string ∈ [ "low"; "medium"; "high" ]%string
  /\ (1 <= 24 <= 600)%Z.
Proof.
  apply (collect_worker_data_fields as_typed as_typed sample_int
           [ "2"; "y"; "1"; "" ]%string
           (WorkerData "construction" 1 "low" 24) []).
  reflexivity.
Defined.

Lemma read_monthly_incomes_shape_witness :
  let monthly_incomes : list Q :=
    [ 12000; 12000; 12000; 12000; 12000; 250000 ] in
  (6 <= length monthly_incomes <= 24)%nat
  /\ Forall (fun x => 0 <= x <= 100000000) monthly_incomes.
Proof.
  intros monthly_incomes.
  apply (read_monthly_incomes_shape as_typed sample_int sample_float
           [ "6"; "12000"; "12000"; "12000"; "12000"; "12000"; "250000" ]%string
           _ []).
  reflexivity.
Defined.

Lemma read_pattern_answers_in_bounds_witness :
  answers_in_bounds (default_answers 250000 12000).
Proof.
  apply (read_pattern_answers_in_bounds as_typed sample_int sample_float
           (replicate 16 ""%string ++ [ "250000"; "12000" ]%string
            ++ replicate 2 ""%string) _ []).
  reflexivity.
Defined.

Lemma pattern_features_within_bounds_witness :
  0.002 <= velocity_change (default_answers 250000 12000) <= 500.
Proof.
  destruct (pattern_features_within_bounds (default_answers 250000 12000))
    as (_ & H & _); [| exact H].
  unfold answers_in_bounds. simpl. repeat split; first [lra | lia].
Defined.

Lemma mom_changes_above_minus_one_witness :
  Forall (fun change => -1 < change) (mom_changes [ 50000; 10000; 0 ]).
Proof.
  apply mom_changes_above_minus_one. repeat constructor; lra.
Defined.

Lemma max_decrease_without_a_fall_witness :
  max_decrease [ 10; 20; 40 ] == np_min (mom_changes [ 10; 20; 40 ])
  /\ 0 < max_decrease [ 10; 20; 40 ].
Proof.
  apply max_decrease_without_a_fall.
  - simpl. lia.
  - repeat constructor; vm_compute; reflexivity.
Defined.

Lemma pct_high_deviation_is_a_fraction_witness :
  0 <= pct_high_deviation [ 12; 0; 0; 0; 0; 0 ] <= 1.
Proof. apply pct_high_deviation_is_a_fraction. discriminate. Defined.

Lemma high_deviation_months_exceed_mean_witness :
  1 < max_deviation_from_mean [ 12; 0; 0; 0; 0; 0 ].
Proof.
  apply high_deviation_months_exceed_mean.
  - repeat constructor; lra.
  - vm_compute. reflexivity.
Defined.

Lemma weekend_share_counts_twice_witness :
  "irregular_timing"%string ∈
    rule_based_detection ∅ (<[ "weekend_pct"%string := 0.6 ]> ∅)
  /\ "weekend_heavy"%string ∈
       rule_based_detection ∅ (<[ "weekend_pct"%string := 0.6 ]> ∅).
Proof.
  apply weekend_share_counts_twice. vm_compute. reflexivity.
Defined.

Lemma missing_keys_trigger_nothing_witness :
  rule_based_detection ∅ ∅ = [].
Proof.
  apply missing_keys_trigger_nothing; intros k _; apply lookup_empty.
Defined.

Lemma no_first_half_income_hides_dormancy_witness :
  fires gap_rule ∅
    (collect_pattern_data (fun q => q)
       (PatternAnswers 10 20 10 10 10 5 15 5 2 2 80 10 20 15 40 40
                       0 250000 300 15))
  = false.
Proof.
  destruct (no_first_half_income_hides_dormancy (fun q => q) ∅
              (PatternAnswers 10 20 10 10 10 5 15 5 2 2 80 10 20 15 40 40
                              0 250000 300 15)) as (_ & H & _);
    [reflexivity | exact H].
Defined.

Lemma risk_score_at_least_classifier_score_witness :
  60 <= risk_score (display_results (MlResult true 60 60)
                      [ "structuring"%string ]) <= 100.
Proof.
  apply (risk_score_at_least_classifier_score (MlResult true 60 60)).
  simpl. lra.
Defined.

Lemma rule_only_levels_witness :
  risk_level (display_results (MlResult false 0 0)
                [ "structuring"; "round_amounts"; "new_sources";
                  "ghost_income" ]%string) = MEDIUM_RISK
  <-> (4 <= 4 <= 6)%nat.
Proof.
  destruct (rule_only_levels (MlResult false 0 0)
              [ "structuring"; "round_amounts"; "new_sources";
                "ghost_income" ]%string) as (_ & H & _);
    [reflexivity | exact H].
Defined.

Lemma explanation_can_be_empty_witness :
  pattern_explanation (MlResult false 10 90) [ "round_amounts"%string ]
  = Some [].
Proof.
  apply explanation_can_be_empty; [discriminate |].
  intros x ->%list_elem_of_singleton. not_listed.
Defined.

Lemma detect_result_ranges_witness :
  let ml := detect_result true 1 0.85 in
  0 <= anomaly_score ml <= 100
  /\ 50 <= confidence ml <= 100
  /\ is_anomaly ml = (1 =? 1)%Z.
Proof. apply (detect_result_ranges 1 0.85). lra. Defined.

Lemma constant_series_is_quiet_witness :
  "high_volatility"%string ∉
    rule_based_detection
      (collect_monthly_income (fun q => q) (repeat 10000 6)) ∅.
Proof.
  destruct (constant_series_is_quiet (fun q => q) 10000 6 ∅)
    as (_ & _ & H & _); [lra | lia | auto | exact H].
Defined.

Lemma accepting_defaults_is_quiet_witness :
  read_pattern_answers as_typed sample_int sample_float
    (replicate 16 ""%string ++ [ "250000"; "12000" ]%string
     ++ replicate 2 ""%string ++ [])
  = Some (default_answers 250000 12000, []).
Proof.
  destruct (accepting_defaults_is_quiet as_typed sample_int sample_float
              (fun q => q) "250000" "12000" 250000 12000 [] ∅)
    as [H _]; [reflexivity | reflexivity | lra | reflexivity | lra | exact H].
Defined.
